(* ===== verification/_CoqProject ===== *)
-Q . S2P
Prelude.v
PyStr.v
PyOS.v
KillProcs.v
Listeners.v
ListProcs.v
PortArgs.v
Emulator.v
KillMain.v
