(* ===== verification/Prelude.v ===== *)
(** * A verification development of the reachMeFront1 process-killing scripts

    The repository has two operator scripts, written in Python:

    - [src/scripts/kill.py] finds lingering Jest / e2e test runners and
      Node servers, by a marker in their command line or by a TCP port they
      listen on, prints them, and with [--kill] sends SIGTERM, waits one
      second, and sends SIGKILL to those still alive.  Its parts are
      [_ps_cmd], [list_listeners_on_port] (parse [lsof], fall back to
      [ss]), [list_processes] (marker matches, port matches, self
      exclusion, sorted output), [process_alive], [kill_processes] (the
      two-phase signal escalation) and the [__main__] block (port argument
      parsing, printing, exit codes).
    - [src/utls/kill_android_emulator.py] lists the lines of [ps aux] that
      mention [emulator] and not [grep] ([get_emulator_pids]) and sends
      signal 9 to each of them ([kill_emulators]).

    The scripts talk to the operating system through [subprocess]
    (outputs of [ps], [lsof], [ss]) and [os.kill].  The development keeps
    these two effects apart:

    - the tool outputs are a snapshot, the record [PyOS.tools]: each
      field is what [subprocess.check_output] returns or the exception it
      raises for one command line;
    - signals act on an operating-system state through the type class
      [PyOS.SignalOS] (what [os.kill] promises: [ESRCH] for a missing
      process, [EPERM] without permission, signal 0 changes nothing,
      SIGKILL removes the target, nothing else is touched).  The client
      code ([KillProcs], [Emulator]) is proved against the class; the
      process table [PyOS.ProcTable] (a [gmap] from pid to process)
      discharges its laws.  Other processes may exit at any moment: the
      program state carries a tick counter and a schedule [sched : nat ->
      list Z] names the processes that exit before the program's n-th
      system call.  Every theorem about the kill loops holds for every
      schedule; the races of the code are theorems about particular ones.

    Files, in dependency order:

    - [Prelude] (this file): Python exceptions [exc] and the [except
      Exception] test, the result type [res] of fallible code, the state
      and error monad [PyM] of code that signals processes ([try_except],
      the loops [py_for] and [py_foldM] with their invariant rules), the
      tactics [py_run] and [case_res], the hint database [pyrt] with the
      [preserves] and [raises_only] combinator lemmas, and the list lemmas
      the components share.
    - [PyStr]: the [str] methods the scripts call ([strip], [split],
      [split(maxsplit=1)], [split(',')], [splitlines], [lower],
      [isdigit], [in], [endswith]), indexing, [int()] on strings and
      [str()] on integers, on strings of code points 0..255 (the Latin-1
      block of Unicode, with Python's whitespace, line-break and digit
      tables for it).  Round trip [int(str(n)) = n].
    - [PyOS]: signals, the [SignalOS] class and its laws, the process
      table instance [ProcTable], the snapshot of tool outputs [tools],
      the program's [world] (state, printed lines, clock) and the monadic
      [os.kill], [print] and [time.sleep] with interference.
    - [KillProcs] (Module [Kill]): [process_alive], the SIGTERM and
      SIGKILL iterations [sigterm_step] and [sigkill_step], and
      [kill_processes].
    - [Listeners]: [_ps_cmd], the [lsof] and [ss] parsers and
      [list_listeners_on_port] with its fallback and its [seen] set.
    - [ListProcs]: [MARKERS], [DEFAULT_PORTS], the marker pass, the port
      pass and [list_processes] over a [gmap] from pid to command.
    - [PortArgs]: the loop over the [-p/--port] strings.
    - [Emulator]: [get_emulator_pids] (the loop, computed as a filter and
      a map [emulator_entries]), what it should find ([matching_lines],
      [pid_field]), [kill_one] and [kill_emulators].
      The text of an exception, [str(e)], is a section parameter.
    - [KillMain]: the [__main__] block of [kill.py] and the exit status.

    The theorems, by group (the claims C1..C17 are marked in the files):
    - escalation ([KillProcs]): whatever other processes do, the kill
      loops return normally and leave every listed process dead or
      reported in [failed], which names only listed pids; with no
      interference [failed] is exactly the listed processes the script
      may not signal; a process that exits between the probe and the
      SIGKILL is still reported as failed (a race of the code);
    - the command line ([KillMain], [PortArgs]): with [--kill] the exit
      status is 0 only when every matched process is dead, 2 otherwise; a
      dry run never signals; when [int()] rejects every [-p] token the run
      is the run of [-p 8082,8081]; [-p] parsing inverts printing a port list;
    - listing ([Listeners], [ListProcs]): [list_listeners_on_port] never
      raises with well-behaved tools, names no pid twice and only pids of
      the tools' output, falls back to [ss] on any [lsof] exception, and
      reports at most one process per [ss] line; [list_processes] is
      strictly sorted, never lists the script itself, lists only marker
      and port matches with a marker process's own command line taking
      priority, and raises [ValueError] on a malformed [ps] line;
    - the emulator script ([Emulator]): the scan returns one entry per
      line with [emulator] and not [grep] (the filter and [int(split()[1])]
      written with the builtins in [matching_lines] and [pid_field]), or
      none at all when one such line has no pid; without its own entry
      the killer leaves every listed process dead or out of reach; with
      its own entry it kills itself with signal 9 and never signals the
      entries after it.
    Each theorem with hypotheses has a witness that applies it to a
    concrete process table or tool output, evaluated by [vm_compute].

    Bounds and fuel: no definition uses fuel except [str_nat], whose fuel
    [1 + log2 n] is at least the number of decimal digits of [n]
    ([str_nat_fuel]: [n < 10 ^ (1 + log2 n)]); every loop is structural over a list or a
    string.  Integers are unbounded [Z], as in Python; pids are not
    checked against a range because the code does not check them.

    Not modelled: [argparse] (its result, the list of [--port] strings and
    the [--kill] flag, is the input of [KillMain]), the exact text of
    exception messages, the one-second [time.sleep] (modelled as one
    system call at which other processes may exit), process groups (pids
    at most 0), pid reuse, and code points above 255. *)

From stdpp Require Export base list gmap strings sorting.
From Stdlib Require Export ZArith Lia.

Declare Scope py_scope.
Delimit Scope py_scope with py.
Open Scope Z_scope.

(** ** Python exceptions *)

(** The exceptions the two scripts raise or catch.  [ProcessKilled sig] is
    not an exception but the death of the script itself by a signal: no
    [except] clause sees it. *)
Inductive exc : Type :=
  | ValueError
  | IndexError
  | KeyError
  | CalledProcessError
  | FileNotFoundError
  | ProcessLookupError
  | PermissionError
  | SystemExit (code : Z)
  | ProcessKilled (signum : Z).

#[export] Instance exc_eq_dec : EqDecision exc.
Proof. solve_decision. Defined.

(** [except Exception:] catches every exception but [SystemExit] (a
    [BaseException]) and, of course, the death of the process. *)
Definition is_Exception (e : exc) : bool :=
  match e with
  | SystemExit _ | ProcessKilled _ => false
  | _ => true
  end.

(** [except OSError:] catches the [OSError] subclasses. *)
Definition is_OSError (e : exc) : bool :=
  match e with
  | FileNotFoundError | ProcessLookupError | PermissionError => true
  | _ => false
  end.

(** ** Fallible computations *)

Inductive res (A : Type) : Type :=
  | Ok (a : A)
  | Exn (e : exc).
Arguments Ok {A} a.
Arguments Exn {A} e.

#[export] Instance res_ret : MRet res := fun A a => Ok a.
#[export] Instance res_bind : MBind res := fun A B f r =>
  match r with Ok a => f a | Exn e => Exn e end.

(** [try: c  except P as e: h e] on a pure fallible computation. *)
Definition try_res {A} (c : res A) (P : exc -> bool) (h : exc -> res A) : res A :=
  match c with
  | Ok a => Ok a
  | Exn e => if P e then h e else Exn e
  end.

(** ** Stateful fallible computations *)

(** The code that signals processes threads a state (the operating system,
    the lines printed, a clock) and may raise. *)
Definition PyM (S A : Type) : Type := S -> res A * S.

#[export] Instance pym_ret {S} : MRet (PyM S) := fun A a s => (Ok a, s).
#[export] Instance pym_bind {S} : MBind (PyM S) := fun A B f c s =>
  match c s with
  | (Ok a, s') => f a s'
  | (Exn e, s') => (Exn e, s')
  end.

Definition raise {S A} (e : exc) : PyM S A := fun s => (Exn e, s).

Definition try_except {S A} (c : PyM S A) (P : exc -> bool)
    (h : exc -> PyM S A) : PyM S A := fun s =>
  match c s with
  | (Exn e, s') => if P e then h e s' else (Exn e, s')
  | r => r
  end.

(** A fallible pure value inside a stateful computation. *)
Definition py_lift {S A} (r : res A) : PyM S A := fun s => (r, s).

Definition py_get {S} : PyM S S := fun s => (Ok s, s).
Definition py_modify {S} (f : S -> S) : PyM S unit := fun s => (Ok tt, f s).

(** [for x in xs: body x] *)
Fixpoint py_for {S A} (xs : list A) (body : A -> PyM S unit) : PyM S unit :=
  match xs with
  | [] => mret tt
  | x :: xs' => body x ≫= fun _ => py_for xs' body
  end.

Notation "c ;;; k" := (mbind (fun _ => k) c)
  (at level 100, right associativity) : py_scope.

(** A loop that threads an accumulator, as [for x in xs:] does with a list
    it appends to. *)
Fixpoint py_foldM {S A B} (xs : list A) (acc : B) (f : B -> A -> PyM S B) : PyM S B :=
  match xs with
  | [] => mret acc
  | x :: xs' => f acc x ≫= fun acc' => py_foldM xs' acc' f
  end.

(** ** Tactics and hints *)

Create HintDb pyrt discriminated.

(** Unfold one layer of the monads and compute. *)
Ltac py_run :=
  cbn [py_for py_foldM] in *;
  cbv [mbind mret pym_bind pym_ret res_bind res_ret try_except try_res
       raise py_lift py_get py_modify] in *.

(** Case on the first result or pair scrutinised in the goal. *)
Ltac case_res :=
  match goal with
  | |- context [match ?r with Ok _ => _ | Exn _ => _ end] =>
      let E := fresh "E" in destruct r eqn:E
  | |- context [match ?p with (_, _) => _ end] =>
      let E := fresh "E" in destruct p eqn:E
  end.

(** ** Generic lemmas *)

Section py_for_lemmas.
Context {S A : Type}.

(** A state invariant every iteration keeps is kept by the loop, whatever
    iteration raises. *)
Lemma py_for_inv (I : S -> Prop) (xs : list A) (body : A -> PyM S unit) s :
  (forall x s0, x ∈ xs -> I s0 -> I (snd (body x s0))) ->
  I s -> I (snd (py_for xs body s)).
Proof.
  revert s. induction xs as [|x xs IH]; intros s Hb Hs; py_run; [done|].
  destruct (body x s) as [[] s'] eqn:E; simpl.
  - apply IH; [intros; apply Hb; [set_solver|done]|].
    pose proof (Hb x s ltac:(set_solver) Hs) as H. by rewrite E in H.
  - pose proof (Hb x s ltac:(set_solver) Hs) as H. by rewrite E in H.
Qed.

(** A loop whose body never raises never raises. *)
Lemma py_for_ok (xs : list A) (body : A -> PyM S unit) s :
  (forall x s0, x ∈ xs -> fst (body x s0) = Ok tt) ->
  fst (py_for xs body s) = Ok tt.
Proof.
  revert s. induction xs as [|x xs IH]; intros s Hb; py_run; [done|].
  destruct (body x s) as [r s'] eqn:E.
  pose proof (Hb x s ltac:(set_solver)) as H. rewrite E in H. simpl in H; subst.
  apply IH. intros; apply Hb; set_solver.
Qed.

Lemma py_for_app (xs ys : list A) (body : A -> PyM S unit) s :
  py_for (xs ++ ys) body s = (py_for xs body ≫= fun _ => py_for ys body) s.
Proof.
  revert s. induction xs as [|x xs IH]; intros s; simpl; py_run; [done|].
  destruct (body x s) as [[] s']; [apply IH|done].
Qed.
End py_for_lemmas.

(** One step of [mapM] in [res]. *)
Lemma mapM_res_cons {A B} (f : A -> res B) x xs :
  mapM f (x :: xs) =
  match f x with
  | Ok y => match mapM f xs with Ok ys => Ok (y :: ys) | Exn e => Exn e end
  | Exn e => Exn e
  end.
Proof. reflexivity. Qed.

(** Binding a pure fallible value. *)
Lemma py_lift_bind {S A B} (r : res A) (f : A -> PyM S B) s :
  (py_lift r ≫= f) s = match r with Ok a => f a s | Exn e => (Exn e, s) end.
Proof. by destruct r. Qed.

(** The accumulator-threading loop, by an invariant that relates the
    elements already visited, the accumulator and the state. *)
Lemma py_foldM_inv {S A B} (I : list A -> B -> S -> Prop) (xs : list A) (acc : B)
    (f : B -> A -> PyM S B) s :
  (forall pre x post acc0 s0, xs = pre ++ x :: post -> I pre acc0 s0 ->
     exists acc1, f acc0 x s0 = (Ok acc1, snd (f acc0 x s0)) /\
                  I (pre ++ [x]) acc1 (snd (f acc0 x s0))) ->
  I [] acc s ->
  exists acc', py_foldM xs acc f s = (Ok acc', snd (py_foldM xs acc f s)) /\ I xs acc' (snd (py_foldM xs acc f s)).
Proof.
  intros Hstep Hi0.
  assert (forall ys pre acc0 s0, xs = pre ++ ys -> I pre acc0 s0 ->
    exists acc', py_foldM ys acc0 f s0 = (Ok acc', snd (py_foldM ys acc0 f s0))
                 /\ I xs acc' (snd (py_foldM ys acc0 f s0))) as Hgen.
  { intros ys. induction ys as [|y ys IH]; intros pre acc0 s0 Hxs Hi; py_run.
    - exists acc0. rewrite app_nil_r in Hxs. by subst.
    - destruct (Hstep pre y ys acc0 s0 Hxs Hi) as (acc1 & Hf & Hi1).
      rewrite Hf. apply (IH (pre ++ [y])); [by rewrite <- app_assoc|done]. }
  by apply (Hgen xs []).
Qed.

(** ** State invariants *)

(** [c] keeps [I], whether it returns or raises. *)
Definition preserves {S A} (I : S -> Prop) (c : PyM S A) : Prop :=
  forall s, I s -> I (snd (c s)).

Section preserves_lemmas.
Context {S : Type} (I : S -> Prop).

Lemma preserves_ret {A} (a : A) : preserves I (mret a).
Proof. by intros s Hs. Qed.

Lemma preserves_lift {A} (r : res A) : preserves I (py_lift r).
Proof. by intros s Hs. Qed.

Lemma preserves_raise {A} (e : exc) : preserves I (raise (A:=A) e).
Proof. by intros s Hs. Qed.

Lemma preserves_get : preserves I py_get.
Proof. by intros s Hs. Qed.

Lemma preserves_bind {A B} (c : PyM S A) (f : A -> PyM S B) :
    preserves I c -> (forall a, preserves I (f a)) -> preserves I (c ≫= f).
Proof.
    intros Hc Hf s Hs. py_run. specialize (Hc s Hs).
    destruct (c s) as [[a|e] s']; [by apply Hf|done].
Qed.

Lemma preserves_try {A} (c : PyM S A) P (h : exc -> PyM S A) :
    preserves I c -> (forall e, preserves I (h e)) -> preserves I (try_except c P h).
Proof.
    intros Hc Hh s Hs. py_run. specialize (Hc s Hs).
    destruct (c s) as [[a|e] s']; [done|]. destruct (P e); [by apply Hh|done].
Qed.

Lemma preserves_for {A} (xs : list A) (body : A -> PyM S unit) :
    (forall x, preserves I (body x)) -> preserves I (py_for xs body).
Proof.
    intros Hb. induction xs as [|x xs IH]; simpl;
      [apply preserves_ret|apply preserves_bind; auto].
Qed.

Lemma preserves_for_in {A} (xs : list A) (body : A -> PyM S unit) :
    (forall x, x ∈ xs -> preserves I (body x)) -> preserves I (py_for xs body).
Proof.
    intros Hb. induction xs as [|x xs IH]; simpl; [apply preserves_ret|].
    apply preserves_bind; [apply Hb; set_solver|intros _; apply IH; set_solver].
Qed.

Lemma preserves_if {A} (b : bool) (c1 c2 : PyM S A) :
    preserves I c1 -> preserves I c2 -> preserves I (if b then c1 else c2).
Proof. by destruct b. Qed.
End preserves_lemmas.

#[export] Hint Resolve preserves_ret preserves_lift preserves_raise preserves_get
  preserves_bind preserves_try preserves_for preserves_for_in preserves_if : pyrt.

(** ** Which exceptions escape *)

(** A result that is a value, or an exception satisfying [P]. *)
Definition res_raises {A} (P : exc -> bool) (r : res A) : Prop :=
  match r with Ok _ => True | Exn e => P e = true end.

(** Every exception [c] raises satisfies [P]. *)
Definition raises_only {S A} (P : exc -> bool) (c : PyM S A) : Prop :=
  forall s, res_raises P (fst (c s)).

Section raises_lemmas.
Context {S : Type} (P : exc -> bool).

Lemma raises_ret {A} (a : A) : raises_only (S:=S) P (mret a).
Proof. done. Qed.

Lemma raises_lift {A} (r : res A) : res_raises P r -> raises_only (S:=S) P (py_lift r).
Proof. by intros Hr s. Qed.

Lemma raises_get : raises_only P (@py_get S).
Proof. done. Qed.

Lemma raises_modify f : raises_only P (@py_modify S f).
Proof. done. Qed.

Lemma raises_bind {A B} (c : PyM S A) (f : A -> PyM S B) :
    raises_only P c -> (forall a, raises_only P (f a)) -> raises_only P (c ≫= f).
Proof.
    intros Hc Hf s. py_run. specialize (Hc s).
    destruct (c s) as [[a|e] s']; [apply Hf|done].
Qed.

Lemma raises_for {A} (xs : list A) (body : A -> PyM S unit) :
    (forall x, raises_only P (body x)) -> raises_only P (py_for xs body).
Proof.
    intros Hb. induction xs as [|x xs IH]; simpl; [apply raises_ret|by apply raises_bind].
Qed.

Lemma raises_if {A} (b : bool) (c1 c2 : PyM S A) :
    raises_only P c1 -> raises_only P c2 -> raises_only P (if b then c1 else c2).
Proof. by destruct b. Qed.

(** [try: c except Q: h]: what escapes is what [c] raises outside [Q]
    and what the handler raises. *)
Lemma raises_try {A} (c : PyM S A) Q (h : exc -> PyM S A) :
    raises_only (fun e => P e || Q e) c -> (forall e, raises_only P (h e)) ->
    raises_only P (try_except c Q h).
Proof.
    intros Hc Hh s. py_run. specialize (Hc s).
    destruct (c s) as [[a|e] s']; [done|]. simpl in Hc.
    destruct (Q e) eqn:E; [apply Hh|]. simpl. by rewrite orb_false_r in Hc.
Qed.

Lemma raises_weaken {A} (Q : exc -> bool) (c : PyM S A) :
    (forall e, P e = true -> Q e = true) -> raises_only P c -> raises_only Q c.
Proof.
    intros HPQ Hc s. specialize (Hc s). destruct (fst (c s)); simpl in *; auto.
Qed.
End raises_lemmas.

#[export] Hint Resolve raises_ret raises_lift raises_get raises_modify raises_bind
  raises_for raises_if : pyrt.

#[export] Hint Resolve py_for_ok : pyrt.

(** Strictly sorted lists have no duplicates. *)
Lemma StronglySorted_lt_NoDup (l : list Z) :
  StronglySorted Z.lt l -> NoDup l.
Proof.
  induction 1 as [|x l _ IH Hall]; constructor; [|done].
  intros Hin. rewrite Forall_forall in Hall. specialize (Hall x Hin). lia.
Qed.

(** A list sorted by [<=] without duplicates is strictly sorted. *)
Lemma Sorted_le_NoDup_lt (l : list Z) :
  Sorted Z.le l -> NoDup l -> StronglySorted Z.lt l.
Proof.
  intros Hs Hnd. apply Sorted_StronglySorted in Hs; [|intros ???; lia].
  induction Hs as [|x l Hs IH Hall]; constructor.
  - apply IH. by inversion Hnd.
  - inversion Hnd as [|? ? Hx _]; subst.
    rewrite Forall_forall in Hall |- *. intros y Hy.
    specialize (Hall y Hy). assert (x <> y).
    { intros ->. by apply Hx. }
    lia.
Qed.

#[export] Hint Resolve StronglySorted_lt_NoDup Sorted_le_NoDup_lt : pyrt.
