(* ===== verification/PyStr.v ===== *)
(** * Python's [str] builtins, as the two scripts use them

    A Python string is modelled as a Rocq [string] whose characters are the
    code points 0..255 (the Latin-1 block of Unicode).  Whitespace, line
    breaks, digits and case follow CPython's tables restricted to that
    block: [isspace] holds of 9..13, 28..32, 133 and 160; [splitlines]
    breaks at 10..13, 28..30 and 133 (and at CR LF as one break); [isdigit]
    holds of '0'..'9' and of the superscripts 178, 179, 185, while [int()]
    and the regular expression [\d] accept '0'..'9' only; [lower] maps
    'A'..'Z' and 192..222 except 215.  Every function is structurally
    recursive, so all of them compute. *)

From S2P Require Import Prelude.
From Stdlib Require Import Ascii.

Local Open Scope string_scope.

(** ** Character classes *)

Definition cp (c : ascii) : N := Ascii.N_of_ascii c.

Definition py_isspace (c : ascii) : bool :=
  let n := cp c in
  (((9 <=? n) && (n <=? 13)) || ((28 <=? n) && (n <=? 32))
   || (n =? 133) || (n =? 160))%N.

Definition py_is_linebreak (c : ascii) : bool :=
  let n := cp c in
  (((10 <=? n) && (n <=? 13)) || ((28 <=? n) && (n <=? 30)) || (n =? 133))%N.

(** The value of a decimal digit ('0'..'9'), as [int()] and [\d] read it. *)
Definition digit_of (c : ascii) : option Z :=
  let n := cp c in
  if ((48 <=? n) && (n <=? 57))%N then Some (Z.of_N n - 48)%Z else None.

Definition py_isdigit_char (c : ascii) : bool :=
  let n := cp c in
  (((48 <=? n) && (n <=? 57)) || (n =? 178) || (n =? 179) || (n =? 185))%N.

Fixpoint str_forallb (f : ascii -> bool) (s : string) : bool :=
  match s with
  | "" => true
  | String c r => f c && str_forallb f r
  end.

(** [s.isdigit()]: non-empty and every character a digit. *)
Definition py_isdigit (s : string) : bool :=
  match s with
  | "" => false
  | _ => str_forallb py_isdigit_char s
  end.

Definition py_lower_char (c : ascii) : ascii :=
  let n := cp c in
  if (((65 <=? n) && (n <=? 90)) || ((192 <=? n) && (n <=? 222) && negb (n =? 215)))%N
  then Ascii.ascii_of_N (n + 32)%N else c.

(** [s.lower()] *)
Fixpoint py_lower (s : string) : string :=
  match s with
  | "" => ""
  | String c r => String (py_lower_char c) (py_lower r)
  end.

(** ** Searching *)

(** [sub in s] *)
Fixpoint py_contains (sub s : string) : bool :=
  String.prefix sub s ||
  match s with
  | "" => false
  | String _ r => py_contains sub r
  end.

(** [s.endswith(sfx)] *)
Fixpoint py_endswith (s sfx : string) : bool :=
  String.eqb s sfx ||
  match s with
  | "" => false
  | String _ r => py_endswith r sfx
  end.

(** ** Stripping and splitting *)

Fixpoint py_lstrip (s : string) : string :=
  match s with
  | "" => ""
  | String c r => if py_isspace c then py_lstrip r else s
  end.

Fixpoint py_rstrip (s : string) : string :=
  match s with
  | "" => ""
  | String c r =>
      match py_rstrip r with
      | "" => if py_isspace c then "" else String c ""
      | r' => String c r'
      end
  end.

(** [s.strip()] *)
Definition py_strip (s : string) : string := py_lstrip (py_rstrip s).

(** The word an accumulator [cur] (reversed) holds, if any. *)
Definition flush (cur : string) : list string :=
  match cur with "" => [] | _ => [String.rev cur] end.

Fixpoint split_ws_go (cur s : string) : list string :=
  match s with
  | "" => flush cur
  | String c r =>
      if py_isspace c then flush cur ++ split_ws_go "" r
      else split_ws_go (String c cur) r
  end.

(** [s.split()]: the maximal runs of non-whitespace. *)
Definition py_split (s : string) : list string := split_ws_go "" s.

(** The first word of a string that does not start with whitespace, and the
    rest from the whitespace after it. *)
Fixpoint take_word (s : string) : string * string :=
  match s with
  | "" => ("", "")
  | String c r =>
      if py_isspace c then ("", s)
      else let '(w, rest) := take_word r in (String c w, rest)
  end.

(** [s.split(maxsplit=1)], as CPython's [split_whitespace] does it: skip
    leading whitespace, take one word, skip whitespace, keep the rest
    (trailing whitespace included) when it is not empty. *)
Definition py_split_max1 (s : string) : list string :=
  match py_lstrip s with
  | "" => []
  | s1 =>
      let '(w, rest) := take_word s1 in
      match py_lstrip rest with
      | "" => [w]
      | r => [w; r]
      end
  end.

Fixpoint split_sep_go (sep : ascii) (cur s : string) : list string :=
  match s with
  | "" => [String.rev cur]
  | String c r =>
      if Ascii.eqb c sep then String.rev cur :: split_sep_go sep "" r
      else split_sep_go sep (String c cur) r
  end.

(** [s.split(sep)] for a one-character separator: every occurrence splits,
    empty pieces are kept. *)
Definition py_split_sep (sep : ascii) (s : string) : list string :=
  split_sep_go sep "" s.

Fixpoint splitlines_go (cur s : string) : list string :=
  match s with
  | "" => flush cur
  | String c r =>
      if Ascii.eqb c "013"%char then
        match r with
        | String d r' =>
            if Ascii.eqb d "010"%char then String.rev cur :: splitlines_go "" r'
            else String.rev cur :: splitlines_go "" r
        | "" => String.rev cur :: splitlines_go "" r
        end
      else if py_is_linebreak c then String.rev cur :: splitlines_go "" r
      else splitlines_go (String c cur) r
  end.

(** [s.splitlines()]: no empty piece after a final line break. *)
Definition py_splitlines (s : string) : list string := splitlines_go "" s.

(** ** Indexing *)

(** [xs[i]], which raises [IndexError] past the end. *)
Definition py_getitem {A} (xs : list A) (i : nat) : res A :=
  match xs !! i with
  | Some x => Ok x
  | None => Exn IndexError
  end.

(** ** Integers and their decimal text *)

(** Digits with single underscores between them; [need] says a digit
    must come next (at the start and after an underscore). *)
Fixpoint int_digits (acc : Z) (need : bool) (s : string) : option Z :=
  match s with
  | "" => if need then None else Some acc
  | String c r =>
      match digit_of c with
      | Some d => int_digits (acc * 10 + d) false r
      | None =>
          if Ascii.eqb c "_"%char && negb need then int_digits acc true r
          else None
      end
  end.

(** [int(s)] for a [str] argument in base 10: surrounding whitespace, an
    optional sign, decimal digits; [ValueError] otherwise. *)
Definition int_signed (t : string) : option Z :=
  match t with
  | String "-" r => Z.opp <$> int_digits 0 true r
  | String "+" r => int_digits 0 true r
  | _ => int_digits 0 true t
  end.

Definition py_int (s : string) : res Z :=
  match int_signed (py_strip s) with
  | Some z => Ok z
  | None => Exn ValueError
  end.

Definition digit_char (d : Z) : ascii := Ascii.ascii_of_N (Z.to_N (48 + d)).

Fixpoint str_nat_go (fuel : nat) (n : Z) (acc : string) : string :=
  match fuel with
  | O => acc
  | S f =>
      if (n <? 10)%Z then String (digit_char n) acc
      else str_nat_go f (n / 10)%Z (String (digit_char (n mod 10)%Z) acc)
  end.

(** The decimal digits of [n >= 0]; [log2 n + 1] steps are enough since
    each step divides by ten. *)
Definition str_nat (n : Z) : string :=
  str_nat_go (S (Z.to_nat (Z.log2 n))) n "".

(** [str(z)] *)
Definition py_str_Z (z : Z) : string :=
  if (z <? 0)%Z then String "-" (str_nat (- z)%Z) else str_nat z.

(** ** Lemmas *)

Local Close Scope string_scope.

Lemma digit_of_digit_char d : 0 <= d < 10 -> digit_of (digit_char d) = Some d.
Proof.
  intros Hd.
  assert (d = 0 \/ d = 1 \/ d = 2 \/ d = 3 \/ d = 4 \/ d = 5 \/ d = 6
          \/ d = 7 \/ d = 8 \/ d = 9) as Hc by lia.
  repeat destruct Hc as [-> | Hc]; [..| subst]; reflexivity.
Qed.

Lemma int_digits_str_nat_go f n acc need :
  0 <= n < 10 ^ Z.of_nat f -> (0 < f)%nat ->
  int_digits 0 need (str_nat_go f n acc) = int_digits n false acc.
Proof.
  revert n acc need. induction f as [|f IH]; intros n acc need Hn Hf; [lia|].
  cbn [str_nat_go]. destruct (Z.ltb_spec n 10).
  - cbn [int_digits]. rewrite digit_of_digit_char by lia. f_equal; lia.
  - assert (0 < 10 ^ Z.of_nat f) by (apply Z.pow_pos_nonneg; lia).
    assert (f <> 0%nat).
    { intros ->. simpl in Hn. lia. }
    rewrite IH; [|split; [apply Z.div_pos; lia|]|lia].
    + cbn [int_digits]. rewrite digit_of_digit_char by (apply Z.mod_pos_bound; lia).
      f_equal. pose proof (Z.div_mod n 10). lia.
    + apply Z.div_lt_upper_bound; [lia|].
      rewrite Nat2Z.inj_succ, Z.pow_succ_r in Hn; lia.
Qed.

Lemma str_nat_fuel n : 0 <= n -> n < 10 ^ Z.of_nat (S (Z.to_nat (Z.log2 n))).
Proof.
  intros Hn. rewrite Nat2Z.inj_succ, Z2Nat.id by apply Z.log2_nonneg.
  apply Z.lt_le_trans with (2 ^ Z.succ (Z.log2 n)).
  - destruct (Z.eq_dec n 0) as [->|]; [reflexivity|].
    apply Z.log2_spec. lia.
  - apply Z.pow_le_mono_l. pose proof (Z.log2_nonneg n). lia.
Qed.

Lemma int_digits_str_nat n need :
  0 <= n -> int_digits 0 need (str_nat n) = Some n.
Proof.
  intros Hn. unfold str_nat. rewrite int_digits_str_nat_go; [done| |lia].
  split; [done|]. by apply str_nat_fuel.
Qed.

Definition is_decimal (c : ascii) : bool :=
  match digit_of c with Some _ => true | None => false end.

(** Character facts, checked on all 256 characters. *)
Lemma decimal_not_space c : is_decimal c = true -> py_isspace c = false.
Proof. destruct c as [[] [] [] [] [] [] [] []]; vm_compute; congruence. Qed.

Lemma digit_of_Some c d : digit_of c = Some d -> 0 <= d < 10 /\ c = digit_char d.
Proof.
  destruct c as [[] [] [] [] [] [] [] []]; intros H; vm_compute in H;
    try discriminate; injection H as <-; (split; [lia|reflexivity]).
Qed.

Lemma digit_of_decimal c : is_decimal c = true ->
  exists d, 0 <= d < 10 /\ c = digit_char d.
Proof.
  unfold is_decimal. destruct (digit_of c) as [d|] eqn:E; [|done].
  intros _. exists d. by apply digit_of_Some.
Qed.

Lemma is_decimal_digit_char d : 0 <= d < 10 -> is_decimal (digit_char d) = true.
Proof. intros Hd. unfold is_decimal. by rewrite digit_of_digit_char. Qed.

Lemma str_nat_go_decimal f n acc :
  0 <= n -> str_forallb is_decimal acc = true ->
  str_forallb is_decimal (str_nat_go f n acc) = true.
Proof.
  revert n acc. induction f as [|f IH]; intros n acc Hn Hacc; simpl; [done|].
  destruct (Z.ltb_spec n 10).
  - simpl. by rewrite is_decimal_digit_char.
  - apply IH; [apply Z.div_pos; lia|]. simpl.
    rewrite is_decimal_digit_char; [done|]. apply Z.mod_pos_bound; lia.
Qed.

Lemma str_nat_decimal n : 0 <= n -> str_forallb is_decimal (str_nat n) = true.
Proof. intros. by apply str_nat_go_decimal. Qed.

Lemma str_nat_go_nonempty f n acc : acc <> "" -> str_nat_go f n acc <> "".
Proof.
  revert n acc. induction f as [|f IH]; intros n acc Hacc; cbn [str_nat_go]; [done|].
  destruct (n <? 10)%Z; [done|]. by apply IH.
Qed.

Lemma str_nat_nonempty n : str_nat n <> "".
Proof.
  unfold str_nat. cbn [str_nat_go].
  destruct (n <? 10)%Z; [done|]. by apply str_nat_go_nonempty.
Qed.

Lemma rstrip_nonspace s :
  str_forallb (fun c => negb (py_isspace c)) s = true -> py_rstrip s = s.
Proof.
  induction s as [|c r IH]; simpl; [done|].
  intros [Hc Hr]%andb_prop. rewrite IH by done.
  destruct r; [|done]. by destruct (py_isspace c).
Qed.

Lemma strip_nonspace s :
  str_forallb (fun c => negb (py_isspace c)) s = true -> py_strip s = s.
Proof.
  intros H. unfold py_strip. rewrite rstrip_nonspace by done.
  destruct s as [|c r]; simpl in *; [done|].
  apply andb_prop in H as [Hc _]. by destruct (py_isspace c).
Qed.

Lemma decimal_nonspace s :
  str_forallb is_decimal s = true ->
  str_forallb (fun c => negb (py_isspace c)) s = true.
Proof.
  induction s as [|c r IH]; simpl; [done|].
  intros [Hc Hr]%andb_prop. rewrite decimal_not_space, IH; done.
Qed.

Lemma int_signed_decimal c r :
  is_decimal c = true -> int_signed (String c r) = int_digits 0 true (String c r).
Proof.
  destruct c as [[] [] [] [] [] [] [] []]; intros H; vm_compute in H;
    try discriminate; reflexivity.
Qed.

(** [int()] raises [ValueError] or nothing. *)
Lemma py_int_raises (s : string) : res_raises is_Exception (py_int s).
Proof. unfold py_int. by destruct (int_signed (py_strip s)). Qed.

(** [int(str(z)) == z] for every integer. *)
Lemma py_int_str_Z z : py_int (py_str_Z z) = Ok z.
Proof.
  unfold py_int, py_str_Z. destruct (Z.ltb_spec z 0).
  - rewrite strip_nonspace.
    + simpl. rewrite int_digits_str_nat by lia. simpl. f_equal. lia.
    + simpl. apply decimal_nonspace, str_nat_decimal. lia.
  - rewrite strip_nonspace by (apply decimal_nonspace, str_nat_decimal; lia).
    pose proof (str_nat_nonempty z) as Hne.
    pose proof (str_nat_decimal z ltac:(lia)) as Hdec.
    pose proof (int_digits_str_nat z true ltac:(lia)) as Hv.
    destruct (str_nat z) as [|c r]; [done|].
    simpl in Hdec. apply andb_prop in Hdec as [Hc _].
    by rewrite int_signed_decimal, Hv.
Qed.
