(* ===== verification/PyOS.v ===== *)
(** * Signals: what [os.kill] promises, a process table that keeps the
      promise, and the system call as the scripts see it

    [SignalOS] is the interface between the scripts and the operating
    system: whether a process is alive, whether the caller may signal it,
    [kill(2)] and the exit of a process on its own.  [SignalOSLaws] are the
    promises of POSIX [kill] the proofs rely on.  [ProcTable] implements the
    class with a [gmap] from pid to process and proves the laws.

    [os_kill] is [os.kill] inside the program: before each system call
    the processes the schedule names for this tick exit (never the
    program itself), then [kill(2)] runs, its [ESRCH] and [EPERM] become
    [ProcessLookupError] and [PermissionError], and a signal that kills the
    program itself ends it. *)

From S2P Require Import Prelude PyStr.

Local Open Scope py_scope.

(** ** Signals and the interface *)

Inductive signal : Type := SIG0 | SIGKILL | SIGTERM.

#[export] Instance signal_eq_dec : EqDecision signal.
Proof. solve_decision. Defined.

Definition signum (sg : signal) : Z :=
  match sg with SIG0 => 0 | SIGKILL => 9 | SIGTERM => 15 end.

Inductive kill_result : Type := KOk | ESRCH | EPERM.

Class SignalOS (S : Type) := {
  os_alive : S -> Z -> bool;
  os_allowed : S -> Z -> bool;
  os_kill_raw : S -> Z -> signal -> kill_result * S;
  os_exit : S -> Z -> S
}.

Class SignalOSLaws (S : Type) `{SignalOS S} := {
  kill_absent s p sg :
    os_alive s p = false -> os_kill_raw s p sg = (ESRCH, s);
  kill_denied s p sg :
    os_alive s p = true -> os_allowed s p = false -> os_kill_raw s p sg = (EPERM, s);
  kill_allowed s p sg :
    os_alive s p = true -> os_allowed s p = true -> fst (os_kill_raw s p sg) = KOk;
  kill_sig0 s p : snd (os_kill_raw s p SIG0) = s;
  kill_sigkill s p :
    fst (os_kill_raw s p SIGKILL) = KOk -> os_alive (snd (os_kill_raw s p SIGKILL)) p = false;
  kill_frame s p q sg :
    q <> p -> os_alive (snd (os_kill_raw s p sg)) q = os_alive s q;
  kill_no_birth s p q sg :
    os_alive (snd (os_kill_raw s p sg)) q = true ->
    os_alive s q = true /\ os_allowed (snd (os_kill_raw s p sg)) q = os_allowed s q;
  exit_dead s p : os_alive (os_exit s p) p = false;
  exit_frame s p q : q <> p -> os_alive (os_exit s p) q = os_alive s q;
  exit_no_birth s p q :
    os_alive (os_exit s p) q = true ->
    os_alive s q = true /\ os_allowed (os_exit s p) q = os_allowed s q
}.

(** [s'] is a later state of [s]: no process was born and the living ones
    kept their permissions. *)
Definition evolves {OS : Type} `{SignalOS OS} (s s' : OS) : Prop :=
  forall q, os_alive s' q = true -> os_alive s q = true /\ os_allowed s' q = os_allowed s q.

(** ** The process table *)

Module ProcTable.

(** What a process does on SIGTERM: exit (the default action) or go on
    (a handler that ignores it). *)
Inductive on_term : Type := TermExits | TermIgnored.

Record proc : Type := mk_proc {
  p_cmd : string;
  p_allowed : bool;
  p_on_term : on_term
}.

Record ptable : Type := PT { procs : gmap Z proc }.

Definition after_signal (t : ptable) (p : Z) (pr : proc) (sg : signal) : ptable :=
  match sg, p_on_term pr with
  | SIG0, _ => t
  | SIGTERM, TermIgnored => t
  | _, _ => PT (delete p (procs t))
  end.

#[export] Instance ptable_os : SignalOS ptable := {
  os_alive t p := bool_decide (is_Some (procs t !! p));
  os_allowed t p := match procs t !! p with Some pr => p_allowed pr | None => false end;
  os_kill_raw t p sg :=
    match procs t !! p with
    | None => (ESRCH, t)
    | Some pr => if p_allowed pr then (KOk, after_signal t p pr sg) else (EPERM, t)
    end;
  os_exit t p := PT (delete p (procs t))
}.

Lemma alive_after_signal t p pr sg q :
  procs t !! p = Some pr ->
  bool_decide (is_Some (procs (after_signal t p pr sg) !! q)) = true ->
  is_Some (procs t !! q) /\ procs (after_signal t p pr sg) !! q = procs t !! q.
Proof.
  intros Hp. unfold after_signal.
  destruct sg, (p_on_term pr); cbn; intros Ha%bool_decide_eq_true; try done;
    (destruct (decide (p = q)) as [<-|];
     [rewrite lookup_delete_eq in Ha; by destruct Ha
     |rewrite lookup_delete_ne in Ha |- * by done; done]).
Qed.

#[export] Instance ptable_laws : SignalOSLaws ptable.
Proof.
  split; cbn; intros *.
  - case_bool_decide as Hs; [done|]. destruct (procs s !! p); [|done].
    exfalso; apply Hs; eauto.
  - case_bool_decide as Hs; [|done]. destruct Hs as [pr ->]. by intros _ ->.
  - destruct (procs s !! p) as [pr|]; [|done]. by intros _ ->.
  - destruct (procs s !! p) as [pr|]; [|done]. destruct (p_allowed pr); [|done].
    by destruct (p_on_term pr).
  - destruct (procs s !! p) as [pr|] eqn:E; [|done].
    destruct (p_allowed pr); [|done]. intros _. cbn.
    rewrite bool_decide_eq_false, lookup_delete_eq. by intros [].
  - intros Hne. destruct (procs s !! p) as [pr|]; [|done].
    destruct (p_allowed pr); [|done]. unfold after_signal.
    destruct sg, (p_on_term pr); cbn; try done; by rewrite lookup_delete_ne.
  - destruct (procs s !! p) as [pr|] eqn:E; [|done].
    destruct (p_allowed pr); [|done]. cbn.
    intros Ha. destruct (alive_after_signal s p pr sg q E Ha) as [Hq ->].
    split; [by apply bool_decide_eq_true|done].
  - rewrite bool_decide_eq_false, lookup_delete_eq. by intros [].
  - intros Hne. by rewrite lookup_delete_ne.
  - destruct (decide (p = q)) as [<-|].
    + rewrite lookup_delete_eq. by intros [? ?]%bool_decide_eq_true.
    + rewrite !lookup_delete_ne by done. done.
Qed.

End ProcTable.

(** ** The outputs of the external tools *)

(** What [subprocess] returns for each command line the scripts run (the
    decoded standard output), or the exception it raises:
    [CalledProcessError] for a non-zero exit status under [check_output],
    [FileNotFoundError] for a missing tool.  [os.getpid()] is the last
    field. *)
Record tools : Type := mk_tools {
  t_ps_eo : res string;        (* ps -eo pid,cmd *)
  t_ps_cmd : Z -> res string;  (* ps -p PID -o cmd= *)
  t_lsof : Z -> res string;    (* lsof -i :PORT -sTCP:LISTEN -n -P *)
  t_ss : res string;           (* ss -ltnp *)
  t_ps_aux : res string;       (* ps aux, under subprocess.run *)
  t_getpid : Z
}.

(** The tools raise Python exceptions only (nothing that [except
    Exception] would miss). *)
Definition tools_wf (T : tools) : Prop :=
  res_raises is_Exception (t_ps_eo T) /\
  (forall pid, res_raises is_Exception (t_ps_cmd T pid)) /\
  (forall port, res_raises is_Exception (t_lsof T port)) /\
  res_raises is_Exception (t_ss T) /\
  res_raises is_Exception (t_ps_aux T).

(** ** The program's view *)

(** The program's world: the operating system, the lines printed so far and
    the number of system calls made. *)
Record world (S : Type) : Type := mk_world {
  w_os : S;
  w_out : list string;
  w_tick : nat
}.
Arguments mk_world {S} _ _ _.
Arguments w_os {S} _.
Arguments w_out {S} _.
Arguments w_tick {S} _.

Section Syscalls.
Context {OS : Type} `{SignalOS OS}.
(** [me] is [os.getpid()]; [sched n] the processes that exit before the
    program's system call number [n]. *)
Context (me : Z) (sched : nat -> list Z).

(** The processes [ps] exit, in order; the program itself does not. *)
Definition exit_others (ps : list Z) (s : OS) : OS :=
  foldl (fun s p => if bool_decide (p = me) then s else os_exit s p) s ps.

Definition interfere (n : nat) (s : OS) : OS := exit_others (sched n) s.

(** One system call's worth of time: other processes may exit. *)
Definition tick : PyM (world OS) unit := fun w =>
  (Ok tt, mk_world (interfere (w_tick w) (w_os w)) (w_out w) (S (w_tick w))).

(** [time.sleep(1)] *)
Definition time_sleep : PyM (world OS) unit := tick.

(** [print(line)] *)
Definition py_print (line : string) : PyM (world OS) unit := fun w =>
  (Ok tt, mk_world (w_os w) (w_out w ++ [line]) (w_tick w)).

(** [kill(2)] and what the program makes of its result. *)
Definition sys_kill (pid : Z) (sg : signal) : PyM (world OS) unit := fun w =>
  let '(r, s') := os_kill_raw (w_os w) pid sg in
  let w' := mk_world s' (w_out w) (w_tick w) in
  match r with
  | KOk => if os_alive s' me then (Ok tt, w') else (Exn (ProcessKilled (signum sg)), w')
  | ESRCH => (Exn ProcessLookupError, w')
  | EPERM => (Exn PermissionError, w')
  end.

(** [os.kill(pid, sig)] *)
Definition os_kill (pid : Z) (sg : signal) : PyM (world OS) unit :=
  tick ;;; sys_kill pid sg.

End Syscalls.

(** ** Facts about the system call, from the laws alone *)

#[export] Instance evolves_preorder {OS : Type} `{SignalOS OS} : PreOrder evolves.
Proof.
  split.
  - intros s q Hq. done.
  - intros s1 s2 s3 H12 H23 q Hq.
    destruct (H23 q Hq) as [Hq2 Ha2]. destruct (H12 q Hq2) as [Hq1 Ha1].
    split; [done|congruence].
Qed.

Section SyscallFacts.
Context {OS : Type} `{SignalOSLaws OS}.
Context (me : Z) (sched : nat -> list Z).

Lemma kill_evolves s p sg : evolves s (snd (os_kill_raw s p sg)).
Proof. intros q Hq. by apply kill_no_birth. Qed.

Lemma exit_evolves s p : evolves s (os_exit s p).
Proof. intros q Hq. by apply exit_no_birth. Qed.

Lemma exit_others_evolves ps s : evolves s (exit_others me ps s).
Proof.
  revert s. induction ps as [|p ps IH]; intros s; simpl; [reflexivity|].
  case_bool_decide; [apply IH|].
  etrans; [apply exit_evolves|apply IH].
Qed.

Lemma exit_others_frame ps s q :
  q ∉ ps -> os_alive (exit_others me ps s) q = os_alive s q.
Proof.
  revert s. induction ps as [|p ps IH]; intros s Hq; simpl; [done|].
  rewrite IH by set_solver. case_bool_decide; [done|].
  apply exit_frame. set_solver.
Qed.

Lemma exit_others_gone ps s q :
  q ∈ ps -> q <> me -> os_alive (exit_others me ps s) q = false.
Proof.
  revert s. induction ps as [|p ps IH]; intros s Hq Hne; [set_solver|simpl].
  destruct (decide (q ∈ ps)) as [Hin|Hout]; [by apply IH|].
  assert (q = p) as <- by set_solver.
  rewrite exit_others_frame by done. rewrite bool_decide_false by done.
  apply exit_dead.
Qed.

Lemma interfere_evolves n s : evolves s (interfere me sched n s).
Proof. apply exit_others_evolves. Qed.

Lemma interfere_gone n s q :
  q ∈ sched n -> q <> me -> os_alive (interfere me sched n s) q = false.
Proof. apply exit_others_gone. Qed.

Lemma interfere_frame n s q :
  q ∉ sched n -> os_alive (interfere me sched n s) q = os_alive s q.
Proof. apply exit_others_frame. Qed.

Lemma interfere_me n s : os_alive s me = true -> os_alive (interfere me sched n s) me = true.
Proof.
  unfold interfere, exit_others. generalize (sched n). intros ps. revert s.
  induction ps as [|p ps IH]; intros s Hs; simpl; [done|].
  case_bool_decide; apply IH; [done|]. by rewrite exit_frame.
Qed.

(** [os.kill] on another process, case by case: the exception it raises
    is decided by the state after the other processes had their turn. *)
Lemma os_kill_cases pid sg w :
  pid <> me -> os_alive (w_os w) me = true ->
  let s1 := interfere me sched (w_tick w) (w_os w) in
  os_kill me sched pid sg w =
    if os_alive s1 pid then
      if os_allowed s1 pid
      then (Ok tt, mk_world (snd (os_kill_raw s1 pid sg)) (w_out w) (S (w_tick w)))
      else (Exn PermissionError, mk_world s1 (w_out w) (S (w_tick w)))
    else (Exn ProcessLookupError, mk_world s1 (w_out w) (S (w_tick w))).
Proof.
  intros Hne Hme. cbv zeta. unfold os_kill, tick, sys_kill. py_run. cbn.
  pose proof (interfere_me (w_tick w) (w_os w) Hme) as Hme1.
  set (s1 := interfere me sched (w_tick w) (w_os w)) in *.
  destruct (os_alive s1 pid) eqn:Ha.
  - destruct (os_allowed s1 pid) eqn:Hp.
    + pose proof (kill_allowed s1 pid sg Ha Hp) as Hk.
      pose proof (kill_frame s1 pid me sg ltac:(done)) as Hf.
      destruct (os_kill_raw s1 pid sg) as [r s'] eqn:E. simpl in Hk, Hf; subst r.
      by rewrite Hf, Hme1.
    + by rewrite kill_denied.
  - by rewrite kill_absent.
Qed.

(** The world after [os.kill] on another process evolves from the one
    before, and the program is still alive. *)
Lemma os_kill_world pid sg w :
  pid <> me -> os_alive (w_os w) me = true ->
  evolves (w_os w) (w_os (snd (os_kill me sched pid sg w))) /\
  os_alive (w_os (snd (os_kill me sched pid sg w))) me = true.
Proof.
  intros Hne Hme. rewrite os_kill_cases by done.
  pose proof (interfere_evolves (w_tick w) (w_os w)) as Hev.
  pose proof (interfere_me (w_tick w) (w_os w) Hme) as Hme1.
  set (s1 := interfere me sched (w_tick w) (w_os w)) in *.
  destruct (os_alive s1 pid), (os_allowed s1 pid); cbn; try done.
  split; [etrans; [apply Hev|apply kill_evolves]|by rewrite kill_frame].
Qed.

Lemma evolves_alive {s s' : OS} q :
  evolves s s' -> os_alive s' q = true -> os_alive s q = true.
Proof. intros Hev Hq. by apply Hev. Qed.

Lemma evolves_dead {s s' : OS} q :
  evolves s s' -> os_alive s q = false -> os_alive s' q = false.
Proof.
  intros Hev Hq. destruct (os_alive s' q) eqn:E; [|done].
  by rewrite (evolves_alive q Hev E) in Hq.
Qed.

Lemma evolves_denied {s s' : OS} q :
  evolves s s' -> os_alive s' q = true -> os_allowed s' q = false ->
  os_alive s q = true /\ os_allowed s q = false.
Proof. intros Hev Hq Hd. destruct (Hev q Hq) as [? <-]. done. Qed.

(** [os.kill(pid, 9)] on another process raises at most an [OSError],
    and leaves [pid] dead or out of the program's reach. *)
Lemma os_kill_sigkill pid w :
  pid <> me -> os_alive (w_os w) me = true ->
  res_raises is_OSError (fst (os_kill me sched pid SIGKILL w)) /\
  (os_alive (w_os (snd (os_kill me sched pid SIGKILL w))) pid = true ->
   os_allowed (w_os (snd (os_kill me sched pid SIGKILL w))) pid = false).
Proof.
  intros Hne Hme. rewrite os_kill_cases by done. cbv zeta.
  set (s1 := interfere me sched (w_tick w) (w_os w)).
  destruct (os_alive s1 pid) eqn:Ha; [destruct (os_allowed s1 pid) eqn:Hp|]; cbn;
    split; try done; [|congruence].
  intros Hd. by rewrite kill_sigkill in Hd by (by apply kill_allowed).
Qed.

(** [os.kill(os.getpid(), 9)], when the program may signal itself, ends
    the program with signal 9. *)
Lemma os_kill_self w :
  os_alive (w_os w) me = true -> os_allowed (w_os w) me = true ->
  fst (os_kill me sched me SIGKILL w) = Exn (ProcessKilled 9).
Proof.
  intros Hme Hp. unfold os_kill, tick, sys_kill. py_run. cbn [w_os w_tick w_out].
  pose proof (interfere_me (w_tick w) (w_os w) Hme) as Hme1.
  destruct (interfere_evolves (w_tick w) (w_os w) me Hme1) as [_ Hp1].
  set (s1 := interfere me sched (w_tick w) (w_os w)) in *.
  pose proof (kill_allowed s1 me SIGKILL Hme1 ltac:(congruence)) as Hk.
  pose proof (kill_sigkill s1 me Hk) as Hd.
  destruct (os_kill_raw s1 me SIGKILL) as [r s'] eqn:E. cbn in Hk, Hd; subst r.
  by rewrite Hd.
Qed.

Lemma time_sleep_world w :
  os_alive (w_os w) me = true ->
  time_sleep me sched w = (Ok tt, snd (time_sleep me sched w)) /\
  evolves (w_os w) (w_os (snd (time_sleep me sched w))) /\
  os_alive (w_os (snd (time_sleep me sched w))) me = true.
Proof.
  intros Hme. cbn. split; [done|]. split; [apply interfere_evolves|by apply interfere_me].
Qed.
End SyscallFacts.

#[export] Hint Resolve kill_evolves exit_evolves interfere_evolves interfere_me : pyrt.
