(* ===== verification/KillProcs.v ===== *)
(** * [process_alive] and [kill_processes] of [src/scripts/kill.py]

    [kill_processes] sends SIGTERM to every listed pid (a vanished process
    is skipped, a forbidden one is recorded as failed), sleeps one second,
    then sends SIGKILL to every listed pid [process_alive] still finds,
    recording any exception of that SIGKILL as failed.  The model is
    generic over the [SignalOS] interface: the theorems hold for every
    operating system that keeps the laws of [kill], and for every schedule
    of other processes exiting between the script's system calls. *)

From S2P Require Import Prelude PyStr PyOS.

Local Open Scope py_scope.

Module Kill.

Section KillProcs.
Context {OS : Type} `{SignalOSLaws OS}.
Context (me : Z) (sched : nat -> list Z).

(** [process_alive(pid)]: [os.kill(pid, 0)], [False] on any [OSError]. *)
Definition process_alive (pid : Z) : PyM (world OS) bool :=
  try_except (os_kill me sched pid SIG0 ;;; mret true) is_OSError (fun _ => mret false).

(** The two [except] clauses of the first loop. *)
Definition sigterm_handled (e : exc) : bool :=
  match e with ProcessLookupError | PermissionError => true | _ => false end.

(** One iteration of the SIGTERM loop over [(pid, cmd)]. *)
Definition sigterm_step (failed : list Z) (pc : Z * string) : PyM (world OS) (list Z) :=
  let '(pid, cmd) := pc in
  try_except
    (py_print ("SIGTERM " ++ py_str_Z pid ++ " :: " ++ cmd)%string ;;;
     os_kill me sched pid SIGTERM ;;;
     mret failed)
    sigterm_handled
    (fun e => match e with
              | PermissionError => mret (failed ++ [pid])
              | _ => mret failed
              end).

(** One iteration of the SIGKILL loop. *)
Definition sigkill_step (failed : list Z) (pc : Z * string) : PyM (world OS) (list Z) :=
  let '(pid, cmd) := pc in
  process_alive pid ≫= (fun alive : bool =>
  if alive then
    try_except
      (py_print ("SIGKILL " ++ py_str_Z pid ++ " :: " ++ cmd)%string ;;;
       os_kill me sched pid SIGKILL ;;;
       mret failed)
      is_Exception
      (fun _ => mret (failed ++ [pid]))
  else mret failed).

(** [kill_processes(pids)], returning the list [failed]. *)
Definition kill_processes (pids : list (Z * string)) : PyM (world OS) (list Z) :=
  py_foldM pids [] sigterm_step ≫= (fun failed : list Z =>
  time_sleep me sched ;;;
  py_foldM pids failed sigkill_step).

(** ** Step lemmas *)

(** What one SIGTERM iteration does: it never raises, records [pid]
    exactly when [pid] is alive and forbidden once the other processes
    had their turn, and leaves [pid] either dead, or signalable, or
    recorded. *)
Lemma sigterm_step_spec failed pid cmd w :
  pid <> me -> os_alive (w_os w) me = true ->
  let s1 := interfere me sched (w_tick w) (w_os w) in
  let denied := os_alive s1 pid && negb (os_allowed s1 pid) in
  exists w', sigterm_step failed (pid, cmd) w
               = (Ok (if denied then failed ++ [pid] else failed), w') /\
    evolves (w_os w) (w_os w') /\ os_alive (w_os w') me = true /\
    (os_alive (w_os w') pid = true -> os_allowed (w_os w') pid = true \/ denied = true) /\
    (forall q, q <> pid -> q ∉ sched (w_tick w) ->
               os_alive (w_os w') q = os_alive (w_os w) q).
Proof.
  intros Hne Hme. cbv zeta. unfold sigterm_step, py_print. py_run.
  pose proof (os_kill_world me sched pid SIGTERM
                (mk_world (w_os w) (w_out w ++ [("SIGTERM " ++ py_str_Z pid ++ " :: " ++ cmd)%string]) (w_tick w))
                Hne Hme) as [Hev Hme'].
  rewrite os_kill_cases in Hev, Hme' |- * by done. cbn in *.
  pose proof (interfere_evolves me sched (w_tick w) (w_os w)) as Hev1.
  set (s1 := interfere me sched (w_tick w) (w_os w)) in *.
  destruct (os_alive s1 pid) eqn:Ha, (os_allowed s1 pid) eqn:Hp; cbn [w_os] in *;
    eexists; (split; [reflexivity|]); cbn [w_os];
    (split; [done|split; [done|split]]); cbn [andb negb];
    try (intros q Hq Hs; unfold s1;
         rewrite ?kill_frame by done; by apply interfere_frame);
    intros Ha'.
  - left. destruct (kill_no_birth s1 pid pid SIGTERM Ha') as [_ ->]. done.
  - by right.
  - congruence.
  - congruence.
Qed.

(** What [process_alive] does: it never raises and answers whether [pid]
    is alive and signalable once the other processes had their turn. *)
Lemma process_alive_spec pid w :
  pid <> me -> os_alive (w_os w) me = true ->
  let s1 := interfere me sched (w_tick w) (w_os w) in
  process_alive pid w =
    (Ok (os_alive s1 pid && os_allowed s1 pid), mk_world s1 (w_out w) (S (w_tick w))).
Proof.
  intros Hne Hme. cbv zeta. unfold process_alive. py_run.
  rewrite os_kill_cases by done.
  set (s1 := interfere me sched (w_tick w) (w_os w)).
  destruct (os_alive s1 pid), (os_allowed s1 pid); cbn; try done.
  by rewrite kill_sig0.
Qed.

(** What one SIGKILL iteration does: it never raises, and leaves [pid]
    dead or recorded, or not signalable. *)
Lemma sigkill_step_spec failed pid cmd w :
  pid <> me -> os_alive (w_os w) me = true ->
  exists failed' w', sigkill_step failed (pid, cmd) w = (Ok failed', w') /\
    (failed' = failed \/ failed' = failed ++ [pid]) /\
    evolves (w_os w) (w_os w') /\ os_alive (w_os w') me = true /\
    (failed' = failed ++ [pid] \/ os_alive (w_os w') pid = false \/
     (os_alive (w_os w') pid = true /\ os_allowed (w_os w') pid = false)).
Proof.
  intros Hne Hme. unfold sigkill_step. py_run.
  rewrite process_alive_spec by done.
  pose proof (interfere_evolves me sched (w_tick w) (w_os w)) as Hev1.
  pose proof (interfere_me me sched (w_tick w) (w_os w) Hme) as Hme1.
  set (s1 := interfere me sched (w_tick w) (w_os w)) in *.
  destruct (os_alive s1 pid) eqn:Ha, (os_allowed s1 pid) eqn:Hp; cbn.
  2-4: eexists _, _; (split; [reflexivity|]); cbn [w_os];
    (split; [by left|split; [done|split; [by apply interfere_me|]]]); auto.
  unfold py_print. py_run.
  set (w2 := mk_world s1 (w_out w ++ [("SIGKILL " ++ py_str_Z pid ++ " :: " ++ cmd)%string]) (S (w_tick w))).
  pose proof (os_kill_world me sched pid SIGKILL w2 Hne Hme1) as [Hev2 Hme2].
  pose proof (os_kill_cases me sched pid SIGKILL w2 Hne Hme1) as Hc.
  destruct (os_kill me sched pid SIGKILL w2) as [r w3] eqn:E.
  unfold w2 in Hc, Hev2, Hme2. cbn [w_os w_tick w_out] in Hc, Hev2, Hme2.
  set (s2 := interfere me sched (S (w_tick w)) s1) in *.
  destruct (os_alive s2 pid) eqn:Ha2; [destruct (os_allowed s2 pid) eqn:Hp2|];
    injection Hc as -> ->; cbn [w_os] in *;
    eexists _, _; (split; [reflexivity|]); cbn [w_os];
    (split; [auto|split; [by etrans|split; [done|]]]); auto.
  right; left. apply kill_sigkill. by apply kill_allowed.
Qed.

(** ** The loops *)

(** After the SIGTERM loop over [pre]: every pid of [pre] that is alive
    and forbidden is recorded, and only pids of [pre] are. *)
Definition term_inv (w0 : world OS) (pre : list (Z * string)) (failed : list Z)
    (w : world OS) : Prop :=
  os_alive (w_os w) me = true /\ evolves (w_os w0) (w_os w) /\
  (forall q, q ∈ pre.*1 -> os_alive (w_os w) q = true ->
             os_allowed (w_os w) q = false -> q ∈ failed) /\
  (forall q, q ∈ failed -> q ∈ pre.*1).

(** During the SIGKILL loop over [pids], after [pre]: the recorded pids
    still cover the forbidden ones, and every pid of [pre] is dead or
    recorded. *)
Definition kill_inv (pids : list (Z * string)) (w0 : world OS)
    (pre : list (Z * string)) (failed : list Z) (w : world OS) : Prop :=
  os_alive (w_os w) me = true /\ evolves (w_os w0) (w_os w) /\
  (forall q, q ∈ pids.*1 -> os_alive (w_os w) q = true ->
             os_allowed (w_os w) q = false -> q ∈ failed) /\
  (forall q, q ∈ pre.*1 -> os_alive (w_os w) q = false \/ q ∈ failed) /\
  (forall q, q ∈ failed -> q ∈ pids.*1).

Lemma term_loop pids w :
  me ∉ pids.*1 -> os_alive (w_os w) me = true ->
  exists failed, py_foldM pids [] sigterm_step w
                 = (Ok failed, snd (py_foldM pids [] sigterm_step w)) /\
    term_inv w pids failed (snd (py_foldM pids [] sigterm_step w)).
Proof.
  intros Hme Hme0. apply py_foldM_inv.
  - intros pre [pid cmd] post failed w1 Hsplit (Hm & Hev & Hcov & Hsub).
    assert (pid <> me).
    { intros ->. apply Hme. rewrite Hsplit, fmap_app. set_solver. }
    destruct (sigterm_step_spec failed pid cmd w1 ltac:(done) Hm)
      as (w' & Hrun & Hev' & Hm' & Hpid & _).
    rewrite Hrun. eexists; split; [reflexivity|]. cbn [snd].
    set (s1 := interfere me sched (w_tick w1) (w_os w1)) in *.
    split; [done|split; [by etrans|split]].
    + intros q Hq Ha Hd. rewrite fmap_app in Hq. apply elem_of_app in Hq as [Hq|Hq].
      * destruct (evolves_denied q Hev' Ha Hd). destruct (_ && _); set_solver.
      * apply list_elem_of_singleton in Hq as ->. cbn [fst] in *.
        destruct (Hpid Ha) as [Hy|Hy]; [congruence|rewrite Hy; set_solver].
    + intros q Hq. rewrite fmap_app. destruct (_ && _); set_solver.
  - split; [done|split; [reflexivity|split]]; intros ?; set_solver.
Qed.

Lemma kill_loop pids failed0 w :
  me ∉ pids.*1 -> kill_inv pids w [] failed0 w ->
  exists failed, py_foldM pids failed0 sigkill_step w
                 = (Ok failed, snd (py_foldM pids failed0 sigkill_step w)) /\
    kill_inv pids w pids failed (snd (py_foldM pids failed0 sigkill_step w)).
Proof.
  intros Hme Hinv. apply py_foldM_inv; [|done].
  intros pre [pid cmd] post failed w1 Hsplit (Hm & Hev & Hcov & Hdone & Hsub).
  assert (pid ∈ pids.*1) as Hin by (rewrite Hsplit, fmap_app; set_solver).
  assert (pid <> me) by (intros ->; by apply Hme).
  destruct (sigkill_step_spec failed pid cmd w1 ltac:(done) Hm)
    as (failed' & w' & Hrun & Hgrow & Hev' & Hm' & Hpid).
  rewrite Hrun. eexists; split; [reflexivity|]. cbn [snd].
  assert (forall q, q ∈ failed -> q ∈ failed') as Hmono
    by (destruct Hgrow as [->| ->]; set_solver).
  assert (forall q, q ∈ pids.*1 -> os_alive (w_os w') q = true ->
                    os_allowed (w_os w') q = false -> q ∈ failed') as Hcov'.
  { intros q Hq Ha Hd. destruct (evolves_denied q Hev' Ha Hd). auto. }
  split; [done|split; [by etrans|split; [done|split]]].
  - intros q Hq. rewrite fmap_app in Hq. apply elem_of_app in Hq as [Hq|Hq].
    + destruct (Hdone q Hq) as [Hd|Hd]; [left; by apply (evolves_dead q Hev')|auto].
    + apply list_elem_of_singleton in Hq as ->. cbn [fst] in *.
      destruct Hpid as [->|[Hd|[Ha Hd]]]; [set_solver|by left|auto].
  - intros q Hq. destruct Hgrow as [->| ->]; [auto|set_solver].
Qed.

(** ** The contract of [kill_processes] *)

(** The whole contract: the run returns normally, the script survives,
    no process is born, and every listed process is dead or in
    [failed], which names only listed pids. *)
Lemma kill_processes_outcome pids w :
  me ∉ pids.*1 -> os_alive (w_os w) me = true ->
  exists failed w', kill_processes pids w = (Ok failed, w') /\
    os_alive (w_os w') me = true /\ evolves (w_os w) (w_os w') /\
    (forall pid, pid ∈ pids.*1 -> os_alive (w_os w') pid = false \/ pid ∈ failed) /\
    (forall pid, pid ∈ failed -> pid ∈ pids.*1).
Proof.
  intros Hme Hme0. unfold kill_processes. py_run.
  destruct (term_loop pids w Hme Hme0) as (failed1 & Hrun1 & Hm1 & Hev1 & Hcov1 & Hsub1).
  rewrite Hrun1.
  set (w1 := snd (py_foldM pids [] sigterm_step w)) in *.
  destruct (time_sleep_world me sched w1 Hm1) as (Hrun2 & Hev2 & Hm2).
  rewrite Hrun2.
  set (w2 := snd (time_sleep me sched w1)) in *.
  destruct (kill_loop pids failed1 w2 Hme) as (failed & Hrun3 & Hm3 & Hev3 & _ & Hdone & Hsub).
  { split; [done|split; [reflexivity|split; [|split]]]; [|set_solver|auto].
    intros q Hq Ha Hd. destruct (evolves_denied q Hev2 Ha Hd). auto. }
  rewrite Hrun3. do 2 eexists. split; [reflexivity|].
  split; [done|split; [|done]]. etrans; [apply Hev1|etrans; [apply Hev2|apply Hev3]].
Qed.

(** C1: for every listed pid other than the script's own, and whatever
    other processes do meanwhile, [kill_processes] returns normally, and
    afterwards every listed process is dead or reported in [failed];
    [failed] names only listed pids. *)
Theorem kill_processes_complete pids w :
  me ∉ pids.*1 -> os_alive (w_os w) me = true ->
  exists failed w', kill_processes pids w = (Ok failed, w') /\
    (forall pid, pid ∈ pids.*1 -> os_alive (w_os w') pid = false \/ pid ∈ failed) /\
    (forall pid, pid ∈ failed -> pid ∈ pids.*1).
Proof.
  intros Hme Hme0.
  destruct (kill_processes_outcome pids w Hme Hme0) as (failed & w' & Hrun & _ & _ & Hdone & Hsub).
  eauto.
Qed.

(** ** Races and the quiet case *)

(** C5: a process that is alive and signalable when [process_alive]
    probes it, but exits before the SIGKILL that follows, makes that
    SIGKILL raise [ProcessLookupError]; [except Exception] records it in
    [failed] although it is gone. *)
Theorem sigkill_step_race failed pid cmd w :
  pid <> me -> os_alive (w_os w) me = true ->
  os_alive (interfere me sched (w_tick w) (w_os w)) pid = true ->
  os_allowed (interfere me sched (w_tick w) (w_os w)) pid = true ->
  pid ∈ sched (S (w_tick w)) ->
  fst (sigkill_step failed (pid, cmd) w) = Ok (failed ++ [pid]) /\
  os_alive (w_os (snd (sigkill_step failed (pid, cmd) w))) pid = false.
Proof.
  intros Hne Hme Ha Hp Hs. unfold sigkill_step. py_run.
  rewrite process_alive_spec, Ha, Hp by done. cbn. unfold py_print. py_run.
  pose proof (interfere_me me sched (w_tick w) (w_os w) Hme) as Hme1.
  rewrite os_kill_cases by done. cbn [w_os w_tick].
  rewrite interfere_gone by done. cbn. split; [done|]. by apply interfere_gone.
Qed.

(** Without a process exiting just before it, the SIGKILL of the second
    loop never fails: the SIGKILL loop only records races. *)
Lemma sigkill_step_no_race failed pid cmd w :
  pid <> me -> os_alive (w_os w) me = true -> pid ∉ sched (S (w_tick w)) ->
  fst (sigkill_step failed (pid, cmd) w) = Ok failed.
Proof.
  intros Hne Hme Hs. unfold sigkill_step. py_run.
  rewrite process_alive_spec by done.
  pose proof (interfere_me me sched (w_tick w) (w_os w) Hme) as Hme1.
  set (s1 := interfere me sched (w_tick w) (w_os w)) in *.
  destruct (os_alive s1 pid) eqn:Ha, (os_allowed s1 pid) eqn:Hp; cbn; try done.
  unfold py_print. py_run. rewrite os_kill_cases by done. cbn [w_os w_tick].
  set (s2 := interfere me sched (S (w_tick w)) s1).
  assert (os_alive s2 pid = true) as Ha2.
  { unfold s2. by rewrite interfere_frame. }
  assert (os_allowed s2 pid = true) as Hp2.
  { destruct (interfere_evolves me sched (S (w_tick w)) s1 pid Ha2) as [_ Heq].
    unfold s2. by rewrite Heq. }
  by rewrite Ha2, Hp2.
Qed.

Section Quiet.
Hypothesis quiet : forall n, sched n = [].

Lemma interfere_quiet n s : interfere me sched n s = s.
Proof. unfold interfere. by rewrite quiet. Qed.

Definition denied_in (s : OS) (p : Z) : bool := os_alive s p && negb (os_allowed s p).

Lemma term_loop_quiet pids w :
    NoDup pids.*1 -> me ∉ pids.*1 -> os_alive (w_os w) me = true ->
    exists w', py_foldM pids [] sigterm_step w
               = (Ok (List.filter (denied_in (w_os w)) pids.*1), w') /\
      os_alive (w_os w') me = true.
Proof.
    intros Hnd Hme Hme0.
    destruct (py_foldM_inv
      (fun pre failed w1 => os_alive (w_os w1) me = true /\ evolves (w_os w) (w_os w1) /\
         failed = List.filter (denied_in (w_os w)) pre.*1 /\
         forall q, q ∉ pre.*1 -> os_alive (w_os w1) q = os_alive (w_os w) q)
      pids [] sigterm_step w) as (failed & Hrun & Hm & _ & -> & _).
    - intros pre [pid cmd] post failed w1 Hsplit (Hm & Hev & -> & Hfr).
      assert (pid <> me).
      { intros ->. apply Hme. rewrite Hsplit, fmap_app. set_solver. }
      assert (pid ∉ pre.*1) as Hnew.
      { rewrite Hsplit, fmap_app in Hnd. cbn in Hnd.
        apply NoDup_app in Hnd as (_ & Hdis & _). intros Hin.
        apply (Hdis pid Hin). set_solver. }
      destruct (sigterm_step_spec (List.filter (denied_in (w_os w)) pre.*1) pid cmd w1
                  ltac:(done) Hm) as (w' & Hrun & Hev' & Hm' & _ & Hfr').
      rewrite Hrun. rewrite !interfere_quiet.
      eexists; split; [reflexivity|]. cbn [snd].
      split; [done|split; [by etrans|split]].
      + rewrite fmap_app, List.filter_app. cbn.
        assert (denied_in (w_os w1) pid = denied_in (w_os w) pid) as Hd.
        { unfold denied_in. destruct (os_alive (w_os w1) pid) eqn:Ha.
          - destruct (Hev pid Ha) as [Ha0 ->]. by rewrite Ha0.
          - by rewrite <- (Hfr pid Hnew), Ha. }
        unfold denied_in in Hd. rewrite Hd. unfold denied_in.
        destruct (os_alive (w_os w) pid && negb (os_allowed (w_os w) pid));
          [done|by rewrite app_nil_r].
      + intros q Hq. rewrite fmap_app in Hq.
        rewrite Hfr' by (rewrite ?quiet; set_solver). apply Hfr. set_solver.
    - split; [done|split; [reflexivity|split; [done|done]]].
    - eauto.
Qed.

(** C8: when no other process exits meanwhile, [kill_processes] over
    distinct pids returns exactly the listed processes that are alive
    and that the script may not signal, in list order. *)
Theorem kill_processes_quiet pids w :
    NoDup pids.*1 -> me ∉ pids.*1 -> os_alive (w_os w) me = true ->
    fst (kill_processes pids w) = Ok (List.filter (denied_in (w_os w)) pids.*1).
Proof.
    intros Hnd Hme Hme0. unfold kill_processes. py_run.
    destruct (term_loop_quiet pids w Hnd Hme Hme0) as (w1 & Hrun1 & Hm1).
    rewrite Hrun1.
    destruct (time_sleep_world me sched w1 Hm1) as (Hrun2 & _ & Hm2).
    rewrite Hrun2. set (w2 := snd (time_sleep me sched w1)) in *.
    set (failed1 := List.filter (denied_in (w_os w)) pids.*1).
    destruct (py_foldM_inv (fun _ failed w3 => os_alive (w_os w3) me = true /\ failed = failed1)
                pids failed1 sigkill_step w2) as (failed & Hrun3 & _ & ->).
    - intros pre [pid cmd] post failed w3 Hsplit (Hm & ->).
      assert (pid <> me).
      { intros ->. apply Hme. rewrite Hsplit, fmap_app. set_solver. }
      destruct (sigkill_step_spec failed1 pid cmd w3 ltac:(done) Hm)
        as (failed' & w' & Hrun & _ & _ & Hm' & _).
      pose proof (sigkill_step_no_race failed1 pid cmd w3 ltac:(done) Hm) as Hnr.
      rewrite quiet in Hnr. specialize (Hnr ltac:(set_solver)).
      rewrite Hrun in Hnr |- *. cbn in Hnr. injection Hnr as ->.
      eexists; split; [reflexivity|]. done.
    - done.
    - by rewrite Hrun3.
Qed.
End Quiet.

End KillProcs.

(** ** Concrete runs on a process table *)

Import ProcTable.

(** The script runs as pid 1; pid 100 is a Jest worker that ignores
    SIGTERM, pid 200 a server of another user, pid 300 a process that
    exits on SIGTERM. *)
Definition demo_table : ptable :=
  PT (list_to_map [(1, mk_proc "python3 scripts/kill.py --kill" true TermExits);
                   (100, mk_proc "node jest --runInBand" true TermIgnored);
                   (200, mk_proc "node server.js" false TermExits);
                   (300, mk_proc "node tests/e2e/run.js" true TermExits)]).

Definition demo_world : world ptable := mk_world demo_table [] 0.

Definition demo_pids : list (Z * string) :=
  [(100, "node jest --runInBand"); (200, "node server.js"); (300, "node tests/e2e/run.js")].

Lemma kill_processes_complete_witness :
  (1 ∉ demo_pids.*1) /\ os_alive (w_os demo_world) 1 = true /\
  (exists failed w', kill_processes 1 (fun _ => []) demo_pids demo_world = (Ok failed, w') /\
    (forall pid, pid ∈ demo_pids.*1 -> os_alive (w_os w') pid = false \/ pid ∈ failed) /\
    (forall pid, pid ∈ failed -> pid ∈ demo_pids.*1)).
Proof.
  assert (1 ∉ demo_pids.*1) as Hme by (vm_compute; set_solver).
  assert (os_alive (w_os demo_world) 1 = true) as Hal by reflexivity.
  split; [exact Hme|split; [exact Hal|]].
  exact (kill_processes_complete 1 (fun _ => []) demo_pids demo_world Hme Hal).
Defined.

(** Pid 100 ignores SIGTERM; it exits on its own right after
    [process_alive] has found it, before the SIGKILL (system call 1 of
    the second loop's first iteration, counted from a fresh world). *)
Definition race_sched (n : nat) : list Z := if decide (n = 1%nat) then [100] else [].

Lemma sigkill_step_race_witness :
  100 <> 1 /\ os_alive (w_os demo_world) 1 = true /\
  os_alive (interfere 1 race_sched (w_tick demo_world) (w_os demo_world)) 100 = true /\
  os_allowed (interfere 1 race_sched (w_tick demo_world) (w_os demo_world)) 100 = true /\
  100 ∈ race_sched (S (w_tick demo_world)) /\
  (fst (sigkill_step 1 race_sched [] (100, "node jest --runInBand") demo_world) = Ok [100] /\
   os_alive (w_os (snd (sigkill_step 1 race_sched [] (100, "node jest --runInBand") demo_world))) 100
     = false).
Proof.
  assert (100 <> 1) as H1 by lia.
  assert (os_alive (w_os demo_world) 1 = true) as H2 by reflexivity.
  assert (os_alive (interfere 1 race_sched (w_tick demo_world) (w_os demo_world)) 100 = true)
    as H3 by reflexivity.
  assert (os_allowed (interfere 1 race_sched (w_tick demo_world) (w_os demo_world)) 100 = true)
    as H4 by reflexivity.
  assert (100 ∈ race_sched (S (w_tick demo_world))) as H5 by (vm_compute; set_solver).
  split; [exact H1|split; [exact H2|split; [exact H3|split; [exact H4|split; [exact H5|]]]]].
  exact (sigkill_step_race 1 race_sched [] 100 "node jest --runInBand" demo_world H1 H2 H3 H4 H5).
Defined.

Lemma kill_processes_quiet_witness :
  (forall n, (fun _ : nat => @nil Z) n = []) /\ NoDup demo_pids.*1 /\
  (1 ∉ demo_pids.*1) /\ os_alive (w_os demo_world) 1 = true /\
  fst (kill_processes 1 (fun _ => []) demo_pids demo_world)
    = Ok (List.filter (denied_in (w_os demo_world)) demo_pids.*1).
Proof.
  assert (forall n, (fun _ : nat => @nil Z) n = []) as Hq by reflexivity.
  assert (NoDup demo_pids.*1) as Hnd by (vm_compute; repeat constructor; set_solver).
  assert (1 ∉ demo_pids.*1) as Hme by (vm_compute; set_solver).
  assert (os_alive (w_os demo_world) 1 = true) as Hal by reflexivity.
  split; [exact Hq|split; [exact Hnd|split; [exact Hme|split; [exact Hal|]]]].
  exact (kill_processes_quiet 1 (fun _ => []) Hq demo_pids demo_world Hnd Hme Hal).
Defined.

(** The whole run under [race_sched]: pid 200 is reported for lack of
    permission, pid 100 for having exited on its own, pid 300 is gone. *)
Example kill_processes_race_run :
  let r := kill_processes 1 (fun n => race_sched (n - 4)%nat) demo_pids demo_world in
  fst r = Ok [200; 100] /\ os_alive (w_os (snd r)) 100 = false /\
  os_alive (w_os (snd r)) 300 = false /\ os_alive (w_os (snd r)) 200 = true.
Proof. vm_compute. repeat split. Qed.

End Kill.
