(* ===== verification/Listeners.v ===== *)
(** * [_ps_cmd] and [list_listeners_on_port] of [src/scripts/kill.py]

    [list_listeners_on_port] keeps two variables, the list [results] and the
    set [seen], that both the [lsof] attempt and the [ss] fallback update:
    when the [lsof] attempt raises half-way, what it found stays and the
    fallback adds to it.  The model threads them as the state of [PyM]
    ([lstate]), reads the tool outputs from a [tools] snapshot and keeps
    the two [try]/[except Exception] blocks as [try_except]. *)

From S2P Require Import Prelude PyStr PyOS.
From Stdlib Require Import Ascii.

Local Open Scope py_scope.

Module Listeners.

Section Listeners.
Context (T : tools).

(** [_ps_cmd(pid)]: the stripped command line, [""] when [ps] exits with
    an error; any other exception (no [ps] at all) propagates. *)
Definition _ps_cmd (pid : Z) : res string :=
  match t_ps_cmd T pid with
  | Ok out => Ok (py_strip out)
  | Exn CalledProcessError => Ok ""
  | Exn e => Exn e
  end.

(** The local variables [results] and [seen]. *)
Record lstate : Type := mk_lstate {
  results : list (Z * string);
  seen : gset Z
}.

(** [if pid not in seen: seen.add(pid); cmd = _ps_cmd(pid);
    results.append((pid, cmd or fallback))], the same in both branches but
    for the fallback name. *)
Definition record_listener (pid : Z) (fallback : string) : PyM lstate unit :=
  py_get ≫= (fun st =>
  if bool_decide (pid ∈ seen st) then mret tt
  else
    py_modify (fun st => mk_lstate (results st) ({[pid]} ∪ seen st)) ;;;
    py_lift (_ps_cmd pid) ≫= (fun cmd =>
    py_modify (fun st =>
      mk_lstate (results st ++ [(pid, if String.eqb cmd "" then fallback else cmd)])
                (seen st)))).

(** One data line of [lsof]: [COMMAND PID USER ...]. *)
Definition lsof_line (line : string) : PyM lstate unit :=
  match py_split line with
  | p0 :: p1 :: _ =>
      if py_isdigit p1 then
        py_lift (py_int p1) ≫= (fun pid => record_listener pid p0)
      else mret tt
  | _ => mret tt
  end.

(** The [lsof] attempt: every line after the header. *)
Definition lsof_branch (port : Z) : PyM lstate unit :=
  py_lift (t_lsof T port) ≫= (fun out =>
  py_for (drop 1 (py_splitlines (py_strip out))) lsof_line).

(** [re.search(r"pid=(\d+)", line)] and its group 1: the leftmost
    position where [pid=] is followed by a digit, and the longest run of
    digits there. *)
Fixpoint take_digits (s : string) : string :=
  match s with
  | "" => ""
  | String c r => if is_decimal c then String c (take_digits r) else ""
  end%string.

Fixpoint after_prefix (p s : string) : option string :=
  match p, s with
  | "", _ => Some s
  | String c p', String d s' => if Ascii.eqb c d then after_prefix p' s' else None
  | _, _ => None
  end%string.

Fixpoint re_search_pid (line : string) : option string :=
  match line with
  | "" => None
  | String _ r =>
      match after_prefix "pid=" line with
      | Some rest =>
          match take_digits rest with
          | "" => re_search_pid r
          | ds => Some ds
          end
      | None => re_search_pid r
      end
  end%string.

(** One line of [ss -ltnp], kept when it names the port. *)
Definition ss_line (port : Z) (line : string) : PyM lstate unit :=
  if py_contains (":" ++ py_str_Z port ++ " ")%string line
     || py_endswith (py_strip line) (":" ++ py_str_Z port)%string then
    match re_search_pid line with
    | Some ds => py_lift (py_int ds) ≫= (fun pid => record_listener pid "")
    | None => mret tt
    end
  else mret tt.

(** The [ss] fallback. *)
Definition ss_branch (port : Z) : PyM lstate unit :=
  py_lift (t_ss T) ≫= (fun out => py_for (py_splitlines out) (ss_line port)).

(** [list_listeners_on_port(port)] *)
Definition list_listeners_on_port (port : Z) : res (list (Z * string)) :=
  let body :=
    try_except (lsof_branch port) is_Exception
      (fun _ => try_except (ss_branch port) is_Exception (fun _ => mret tt)) in
  match body (mk_lstate [] ∅) with
  | (Ok _, st) => Ok (results st)
  | (Exn e, _) => Exn e
  end.

(** ** The results list and the seen set *)

(** [results] has no pid twice and every pid of it is in [seen]. *)
Definition lstate_inv (st : lstate) : Prop :=
  NoDup (results st).*1 /\ forall p, p ∈ (results st).*1 -> p ∈ seen st.

Lemma record_listener_inv pid fb : preserves lstate_inv (record_listener pid fb).
Proof.
  intros st [Hnd Hsub]. unfold record_listener. py_run.
  case_bool_decide as Hin; [by split|]. cbn.
  destruct (_ps_cmd pid) as [cmd|e]; cbn; unfold lstate_inv; cbn [results seen].
  - rewrite fmap_app. split.
    + apply NoDup_app. split; [done|split; [|by apply NoDup_singleton]].
      intros q Hq Hx%list_elem_of_singleton. subst q. by apply Hin, Hsub.
    + intros q. rewrite elem_of_app. intros [Hq|Hx%list_elem_of_singleton];
        [apply Hsub in Hq|subst q]; set_solver.
  - split; [done|]. intros q Hq. apply Hsub in Hq. set_solver.
Qed.

Lemma lsof_branch_inv port : preserves lstate_inv (lsof_branch port).
Proof.
  unfold lsof_branch. apply preserves_bind; [apply preserves_lift|intros out].
  apply preserves_for. intros line. unfold lsof_line.
  destruct (py_split line) as [|p0 [|p1 ps]]; [apply preserves_ret..|].
  apply preserves_if; [|apply preserves_ret].
  apply preserves_bind; [apply preserves_lift|intros; apply record_listener_inv].
Qed.

Lemma ss_branch_inv port : preserves lstate_inv (ss_branch port).
Proof.
  unfold ss_branch. apply preserves_bind; [apply preserves_lift|intros out].
  apply preserves_for. intros line. unfold ss_line.
  apply preserves_if; [|apply preserves_ret].
  destruct (re_search_pid line); [|apply preserves_ret].
  apply preserves_bind; [apply preserves_lift|intros; apply record_listener_inv].
Qed.

(** ** Where the pids come from *)

(** The pid an [lsof] data line names, as [lsof_line] reads it. *)
Definition lsof_line_pid (line : string) : option Z :=
  match py_split line with
  | _ :: p1 :: _ =>
      if py_isdigit p1 then match py_int p1 with Ok z => Some z | Exn _ => None end
      else None
  | _ => None
  end.

(** The pid an [ss] line names for [port], as [ss_line] reads it. *)
Definition ss_line_pid (port : Z) (line : string) : option Z :=
  if py_contains (":" ++ py_str_Z port ++ " ")%string line
     || py_endswith (py_strip line) (":" ++ py_str_Z port)%string then
    match re_search_pid line with
    | Some ds => match py_int ds with Ok z => Some z | Exn _ => None end
    | None => None
    end
  else None.

(** Every pid of [results] is named by an [lsof] data line or an [ss]
    line for the port. *)
Definition from_tools (port : Z) (st : lstate) : Prop :=
  forall p, p ∈ (results st).*1 ->
    (exists out line, t_lsof T port = Ok out /\ line ∈ drop 1 (py_splitlines (py_strip out)) /\
                      lsof_line_pid line = Some p) \/
    (exists out line, t_ss T = Ok out /\ line ∈ py_splitlines out /\
                      ss_line_pid port line = Some p).

Lemma record_listener_from port pid fb :
  ((exists out line, t_lsof T port = Ok out /\ line ∈ drop 1 (py_splitlines (py_strip out)) /\
                     lsof_line_pid line = Some pid) \/
   (exists out line, t_ss T = Ok out /\ line ∈ py_splitlines out /\
                     ss_line_pid port line = Some pid)) ->
  preserves (from_tools port) (record_listener pid fb).
Proof.
  intros Hpid st Hst. unfold record_listener. py_run.
  case_bool_decide; [done|]. cbn.
  destruct (_ps_cmd pid); cbn; [|done].
  unfold from_tools. cbn [results].
  intros q. rewrite fmap_app, elem_of_app. intros [Hq|Hq]; [by apply Hst|].
  apply list_elem_of_singleton in Hq. by subst q.
Qed.

(** C10: every pid [list_listeners_on_port] returns is the PID column of a
    data line of the [lsof] output or the [pid=] of an [ss] line that
    names the port: the listing never invents a process. *)
Theorem list_listeners_on_port_sound port rs :
  list_listeners_on_port port = Ok rs ->
  forall p, p ∈ rs.*1 ->
    (exists out line, t_lsof T port = Ok out /\ line ∈ drop 1 (py_splitlines (py_strip out)) /\
                      lsof_line_pid line = Some p) \/
    (exists out line, t_ss T = Ok out /\ line ∈ py_splitlines out /\
                      ss_line_pid port line = Some p).
Proof.
  unfold list_listeners_on_port.
  set (body := try_except (lsof_branch port) is_Exception
                 (fun _ => try_except (ss_branch port) is_Exception (fun _ => mret tt))).
  assert (preserves (from_tools port) body) as Hinv.
  { apply preserves_try; [|intros _; apply preserves_try; [|intros _; apply preserves_ret]].
    - unfold lsof_branch. intros st Hst. py_run.
      destruct (t_lsof T port) as [out|e] eqn:Hl; [|done].
      revert st Hst. apply preserves_for_in. intros line Hline. unfold lsof_line.
      destruct (py_split line) as [|p0 [|p1 ps]] eqn:Hsp; [apply preserves_ret..|].
      destruct (py_isdigit p1) eqn:Hd; [|apply preserves_ret].
      destruct (py_int p1) as [pid|e] eqn:Hi; [|apply preserves_raise].
      intros st Hst. py_run.
      apply record_listener_from; [|done]. left. exists out, line.
      split; [done|split; [done|]]. unfold lsof_line_pid. by rewrite Hsp, Hd, Hi.
    - unfold ss_branch. intros st Hst. py_run.
      destruct (t_ss T) as [out|e] eqn:Hs; [|done].
      revert st Hst. apply preserves_for_in. intros line Hline. unfold ss_line.
      destruct (_ || _) eqn:Hm; [|apply preserves_ret].
      destruct (re_search_pid line) as [ds|] eqn:Hre; [|apply preserves_ret].
      destruct (py_int ds) as [pid|e] eqn:Hi; [|apply preserves_raise].
      intros st Hst. py_run.
      apply record_listener_from; [|done]. right. exists out, line.
      split; [done|split; [done|]]. unfold ss_line_pid. by rewrite Hm, Hre, Hi. }
  intros Hrun. specialize (Hinv (mk_lstate [] ∅) ltac:(intros ? []%not_elem_of_nil)).
  destruct (body (mk_lstate [] ∅)) as [[u|e] st]; [|done].
  injection Hrun as <-. apply Hinv.
Qed.

Section WellFormed.
Hypothesis wf : tools_wf T.

Lemma ps_cmd_raises pid : res_raises is_Exception (_ps_cmd pid).
Proof.
  unfold _ps_cmd. destruct wf as (_ & Hps & _).
  specialize (Hps pid). destruct (t_ps_cmd T pid) as [|[]]; done.
Qed.

Lemma record_listener_raises pid fb : raises_only is_Exception (record_listener pid fb).
Proof.
  unfold record_listener. apply raises_bind; [apply raises_get|intros st].
  apply raises_if; [apply raises_ret|].
  apply raises_bind; [apply raises_modify|intros _].
  apply raises_bind; [apply raises_lift, ps_cmd_raises|intros; apply raises_modify].
Qed.

Lemma lsof_branch_raises port : raises_only is_Exception (lsof_branch port).
Proof.
  unfold lsof_branch. destruct wf as (_ & _ & Hl & _).
  apply raises_bind; [by apply raises_lift|intros out].
  apply raises_for. intros line. unfold lsof_line.
  destruct (py_split line) as [|p0 [|p1 ps]]; [apply raises_ret..|].
  apply raises_if; [|apply raises_ret].
  apply raises_bind; [apply raises_lift, py_int_raises|intros; apply record_listener_raises].
Qed.

Lemma ss_branch_raises port : raises_only is_Exception (ss_branch port).
Proof.
  unfold ss_branch. destruct wf as (_ & _ & _ & Hss & _).
  apply raises_bind; [by apply raises_lift|intros out].
  apply raises_for. intros line. unfold ss_line.
  apply raises_if; [|apply raises_ret].
  destruct (re_search_pid line); [|apply raises_ret].
  apply raises_bind; [apply raises_lift, py_int_raises|intros; apply record_listener_raises].
Qed.

(** C6: [list_listeners_on_port] never raises (both of its [try] blocks
    swallow every exception of the tools, of [int()] and of [_ps_cmd]),
    and the list it returns names no pid twice, whichever of [lsof] and
    [ss] produced it. *)
Theorem list_listeners_on_port_nodup port :
  exists rs, list_listeners_on_port port = Ok rs /\ NoDup rs.*1.
Proof.
  unfold list_listeners_on_port.
  set (body := try_except (lsof_branch port) is_Exception
                 (fun _ => try_except (ss_branch port) is_Exception (fun _ => mret tt))).
  assert (preserves lstate_inv body) as Hinv.
  { apply preserves_try; [apply lsof_branch_inv|intros _].
    apply preserves_try; [apply ss_branch_inv|intros _; apply preserves_ret]. }
  assert (raises_only (fun _ => false) body) as Hr.
  { apply raises_try; [|intros _; apply raises_try; [|intros _; apply raises_ret]];
      (apply raises_weaken with (P := is_Exception); [intros e He; by rewrite He|]);
      [apply lsof_branch_raises|apply ss_branch_raises]. }
  specialize (Hinv (mk_lstate [] ∅) ltac:(split; [constructor|set_solver])).
  specialize (Hr (mk_lstate [] ∅)).
  destruct (body (mk_lstate [] ∅)) as [[u|e] st]; [|done].
  exists (results st). split; [done|apply Hinv].
Qed.

(** C15: when the [lsof] call itself raises, which it does not only when
    [lsof] is missing ([FileNotFoundError]) but also when [lsof] runs and
    finds no listener (exit status 1, [CalledProcessError]), the result is
    exactly what the [ss] fallback collects from an empty list. *)
Theorem lsof_error_falls_back port e :
  t_lsof T port = Exn e ->
  list_listeners_on_port port = Ok (results (snd (ss_branch port (mk_lstate [] ∅)))).
Proof.
  intros Hl. destruct wf as (_ & _ & Hlw & _). specialize (Hlw port).
  rewrite Hl in Hlw. cbn in Hlw.
  unfold list_listeners_on_port, lsof_branch. py_run. rewrite Hl. cbn. rewrite Hlw.
  pose proof (ss_branch_raises port (mk_lstate [] ∅)) as Hr.
  destruct (ss_branch port (mk_lstate [] ∅)) as [[u|e'] st]; cbn in *; [done|].
  by rewrite Hr.
Qed.

End WellFormed.

(** ** At most one listener per [ss] line *)

Lemma record_listener_grow pid fb st :
  (length (results (snd (record_listener pid fb st))) <= S (length (results st)))%nat.
Proof.
  unfold record_listener. py_run. case_bool_decide; cbn; [lia|].
  destruct (_ps_cmd pid); cbn; rewrite ?length_app; cbn; lia.
Qed.

Lemma ss_line_grow port l st :
  (length (results (snd (ss_line port l st))) <=
   length (results st) +
   (if py_contains (":" ++ py_str_Z port ++ " ")%string l
       || py_endswith (py_strip l) (":" ++ py_str_Z port)%string then 1 else 0))%nat.
Proof.
  unfold ss_line. destruct (_ || _); cbn; [|lia].
  destruct (re_search_pid l) as [ds|]; cbn; [|lia]. rewrite py_lift_bind.
  destruct (py_int ds) as [pid|]; cbn; [|lia].
  pose proof (record_listener_grow pid "" st). lia.
Qed.

Lemma ss_lines_grow port lines st :
  (length (results (snd (py_for lines (ss_line port) st))) <=
   length (results st) +
   length (List.filter (fun l => py_contains (":" ++ py_str_Z port ++ " ")%string l
                                 || py_endswith (py_strip l) (":" ++ py_str_Z port)%string) lines))%nat.
Proof.
  revert st. induction lines as [|l lines IH]; intros st; cbn [py_for List.filter]; [cbn; lia|].
  cbv [mbind pym_bind]. pose proof (ss_line_grow port l st) as Hl.
  destruct (ss_line port l st) as [[u|x] st1]; cbn in Hl |- *.
  - specialize (IH st1). destruct (_ || _); cbn in *; lia.
  - destruct (_ || _); cbn in *; lia.
Qed.

(** C16: when the [lsof] call raises, [list_listeners_on_port] reports at
    most one process per line of [ss] that names the port: [re.search]
    takes the first [pid=] of a line, so of the processes sharing one
    listening socket, which [ss] prints on a single line, all but one
    are lost, where [lsof] lists each of them. *)
Theorem ss_fallback_first_pid_only port e out rs :
  t_lsof T port = Exn e -> t_ss T = Ok out -> list_listeners_on_port port = Ok rs ->
  (length rs <=
   length (List.filter (fun l => py_contains (":" ++ py_str_Z port ++ " ")%string l
                                 || py_endswith (py_strip l) (":" ++ py_str_Z port)%string)
             (py_splitlines out)))%nat.
Proof.
  intros Hl Hs Hrun. unfold list_listeners_on_port, lsof_branch in Hrun. py_run.
  rewrite Hl in Hrun. cbn in Hrun. destruct (is_Exception e); [|done].
  unfold ss_branch in Hrun. rewrite py_lift_bind, Hs in Hrun.
  pose proof (ss_lines_grow port (py_splitlines out) (mk_lstate [] ∅)) as Hg.
  destruct (py_for (py_splitlines out) (ss_line port) (mk_lstate [] ∅)) as [[u|x] st] eqn:E;
    cbn in Hrun, Hg.
  - injection Hrun as <-. lia.
  - destruct (is_Exception x); cbn in Hrun; [injection Hrun as <-; lia|done].
Qed.

End Listeners.

(** ** Concrete runs *)

Definition nl : string := String "010"%char "".
Definition dq : string := String "034"%char "".

(** A socket shared by two Node processes (a server and its forked
    worker), [lsof] exiting with status 1. *)
Definition ss_shared_out : string :=
  ("State Recv-Q Send-Q Local Address:Port Peer Address:Port Process" ++ nl ++
   "LISTEN 0 511 *:8081 *:* users:((" ++ dq ++ "node" ++ dq ++ ",pid=4321,fd=21),(" ++
   dq ++ "node" ++ dq ++ ",pid=4322,fd=21))" ++ nl)%string.

Definition shared_tools : tools := {|
  t_ps_eo := Ok "";
  t_ps_cmd := fun pid => if decide (pid = 4321) then Ok ("node server.js" ++ nl)%string
                         else if decide (pid = 4322) then Ok ("node server.js" ++ nl)%string
                         else Exn CalledProcessError;
  t_lsof := fun _ => Exn CalledProcessError;
  t_ss := Ok ss_shared_out;
  t_ps_aux := Ok "";
  t_getpid := 1
|}.

Lemma shared_tools_wf : tools_wf shared_tools.
Proof.
  split; [done|split; [|split; [done|split; done]]].
  intros pid. cbn. repeat case_decide; done.
Qed.

Lemma lsof_error_falls_back_witness :
  tools_wf shared_tools /\ t_lsof shared_tools 8081 = Exn CalledProcessError /\
  list_listeners_on_port shared_tools 8081
    = Ok (results (snd (ss_branch shared_tools 8081 (mk_lstate [] ∅)))).
Proof.
  assert (t_lsof shared_tools 8081 = Exn CalledProcessError) as Hl by reflexivity.
  split; [exact shared_tools_wf|split; [exact Hl|]].
  exact (lsof_error_falls_back shared_tools shared_tools_wf 8081 CalledProcessError Hl).
Defined.

Lemma list_listeners_on_port_nodup_witness :
  tools_wf shared_tools /\
  exists rs, list_listeners_on_port shared_tools 8081 = Ok rs /\ NoDup rs.*1.
Proof.
  split; [exact shared_tools_wf|].
  exact (list_listeners_on_port_nodup shared_tools shared_tools_wf 8081).
Defined.

Lemma list_listeners_on_port_sound_witness :
  list_listeners_on_port shared_tools 8081 = Ok [(4321, "node server.js")] /\
  forall p, p ∈ [(4321, "node server.js"%string)].*1 ->
    (exists out line, t_lsof shared_tools 8081 = Ok out /\
       line ∈ drop 1 (py_splitlines (py_strip out)) /\
       lsof_line_pid line = Some p) \/
    (exists out line, t_ss shared_tools = Ok out /\ line ∈ py_splitlines out /\
       ss_line_pid 8081 line = Some p).
Proof.
  assert (list_listeners_on_port shared_tools 8081 = Ok [(4321, "node server.js")]) as H
    by (vm_compute; reflexivity).
  split; [exact H|].
  exact (list_listeners_on_port_sound shared_tools 8081 _ H).
Defined.

Lemma ss_fallback_first_pid_only_witness :
  t_lsof shared_tools 8081 = Exn CalledProcessError /\
  t_ss shared_tools = Ok ss_shared_out /\
  list_listeners_on_port shared_tools 8081 = Ok [(4321, "node server.js")] /\
  (length [(4321, "node server.js")] <=
   length (List.filter (fun l => py_contains (":" ++ py_str_Z 8081 ++ " ")%string l
                                 || py_endswith (py_strip l) (":" ++ py_str_Z 8081)%string)
             (py_splitlines ss_shared_out)))%nat.
Proof.
  assert (t_lsof shared_tools 8081 = Exn CalledProcessError) as H1 by reflexivity.
  assert (t_ss shared_tools = Ok ss_shared_out) as H2 by reflexivity.
  assert (list_listeners_on_port shared_tools 8081 = Ok [(4321, "node server.js")]) as H3
    by (vm_compute; reflexivity).
  split; [exact H1|]. split; [exact H2|]. split; [exact H3|].
  exact (ss_fallback_first_pid_only shared_tools 8081 _ _ _ H1 H2 H3).
Defined.

(** Pids 4321 and 4322 share the socket of port 8081; the fallback lists
    only the first. *)
Example ss_shared_socket_run :
  py_contains "pid=4322" ss_shared_out = true /\
  list_listeners_on_port shared_tools 8081 = Ok [(4321, "node server.js")].
Proof. split; vm_compute; reflexivity. Qed.

End Listeners.
