(* ===== verification/ListProcs.v ===== *)
(** * [list_processes] of [src/scripts/kill.py]

    [list_processes(ports)] reads [ps -eo pid,cmd], keeps in a dict
    [by_pid] every process whose command line contains one of [MARKERS]
    (case-insensitively; a later line for the same pid overwrites), adds
    the listeners of each port ([DEFAULT_PORTS] when none is given) whose
    pid is not yet a key, drops the script's own pid, and returns the
    pairs sorted by pid.  The dict is a [gmap Z string]; the sort is
    stdpp's [merge_sort] on the keys. *)

From S2P Require Import Prelude PyStr PyOS Listeners.
From Stdlib Require Import Ascii.

Local Open Scope py_scope.

Module ListProcs.

Definition MARKERS : list string :=
  ["jest"; "entities.e2e.test"; "tests/e2e"; "--runTestsByPath"]%string.

Definition DEFAULT_PORTS : list Z := [8082; 8081].

(** [any(m.lower() in lower for m in MARKERS)] *)
Definition has_marker (lower : string) : bool :=
  existsb (fun m => py_contains (py_lower m) lower) MARKERS.

(** One line of [ps]: [pid_str, cmd = line.strip().split(maxsplit=1)]
    ([continue] on a line with fewer than two fields), then [int(pid_str)],
    which raises [ValueError] out of [list_processes]. *)
Definition marker_line (by_pid : gmap Z string) (line : string) : res (gmap Z string) :=
  match py_split_max1 (py_strip line) with
  | [pid_str; cmd] =>
      pid ← py_int pid_str;
      mret (if has_marker (py_lower cmd) then <[pid := cmd]> by_pid else by_pid)
  | _ => mret by_pid
  end.

Fixpoint marker_pass (by_pid : gmap Z string) (lines : list string) : res (gmap Z string) :=
  match lines with
  | [] => mret by_pid
  | line :: rest => by_pid' ← marker_line by_pid line; marker_pass by_pid' rest
  end.

(** [for pid, cmd in list_listeners_on_port(int(port)):
       if pid not in by_pid: by_pid[pid] = cmd] *)
Definition add_listeners (by_pid : gmap Z string) (ls : list (Z * string)) : gmap Z string :=
  foldl (fun m '(pid, cmd) => match m !! pid with Some _ => m | None => <[pid := cmd]> m end)
        by_pid ls.

Fixpoint port_pass (T : tools) (by_pid : gmap Z string) (ports : list Z) : res (gmap Z string) :=
  match ports with
  | [] => mret by_pid
  | port :: rest =>
      ls ← Listeners.list_listeners_on_port T port;
      port_pass T (add_listeners by_pid ls) rest
  end.

(** [sorted(by_pid.keys())] *)
Definition sorted_keys (m : gmap Z string) : list Z :=
  merge_sort Z.le (map_to_list m).*1.

(** [[(pid, by_pid[pid]) for pid in ...]] *)
Definition pairs_of (m : gmap Z string) (pids : list Z) : res (list (Z * string)) :=
  mapM (fun pid => match m !! pid with Some c => Ok (pid, c) | None => Exn KeyError end) pids.

(** [list_processes(ports)] *)
Definition list_processes (T : tools) (ports : list Z) : res (list (Z * string)) :=
  let ports := match ports with [] => DEFAULT_PORTS | _ => ports end in
  out ← t_ps_eo T;
  let lines := drop 1 (py_splitlines (py_strip out)) in
  by_pid ← marker_pass ∅ lines;
  by_pid ← port_pass T by_pid ports;
  let by_pid := delete (t_getpid T) by_pid in
  pairs_of by_pid (sorted_keys by_pid).

(** ** The sorted keys and the final comprehension *)

Lemma sorted_keys_elem (m : gmap Z string) p : p ∈ sorted_keys m <-> is_Some (m !! p).
Proof.
  unfold sorted_keys. rewrite (merge_sort_Permutation Z.le).
  rewrite list_elem_of_fmap. split.
  - intros [[k c] [-> Hin]]. apply elem_of_map_to_list in Hin. by exists c.
  - intros [c Hc]. exists (p, c). split; [done|]. by apply elem_of_map_to_list.
Qed.

Lemma sorted_keys_sorted (m : gmap Z string) : StronglySorted Z.lt (sorted_keys m).
Proof.
  apply Sorted_le_NoDup_lt.
  - apply Sorted_merge_sort. intros x y. lia.
  - unfold sorted_keys. rewrite (merge_sort_Permutation Z.le).
    apply NoDup_fst_map_to_list.
Qed.

Lemma pairs_of_spec (m : gmap Z string) pids :
  (forall p, p ∈ pids -> is_Some (m !! p)) ->
  exists ps, pairs_of m pids = Ok ps /\ ps.*1 = pids /\
    (forall p c, (p, c) ∈ ps <-> p ∈ pids /\ m !! p = Some c).
Proof.
  induction pids as [|p pids IH]; intros Hall.
  - exists []. split; [done|split; [done|]]. intros ??. split; [intros []%not_elem_of_nil|].
    intros [[]%not_elem_of_nil _].
  - destruct (Hall p ltac:(set_solver)) as [c Hc].
    destruct IH as (ps & Hps & Hfst & Hmem); [intros; apply Hall; set_solver|].
    exists ((p, c) :: ps). unfold pairs_of in *. cbn. rewrite Hc, Hps. cbn.
    split; [done|split; [by rewrite Hfst|]].
    intros q d. rewrite elem_of_cons, Hmem, elem_of_cons. split.
    + intros [Heq|[Hq Hd]]; [injection Heq as -> ->; auto|auto].
    + intros [[->|Hq] Hd]; [left; congruence|by right].
Qed.

(** The comprehension over the sorted keys never raises [KeyError] and
    lists the map's entries, in increasing pid order. *)
Lemma pairs_of_sorted_keys (m : gmap Z string) :
  exists ps, pairs_of m (sorted_keys m) = Ok ps /\ ps.*1 = sorted_keys m /\
    (forall p c, (p, c) ∈ ps <-> m !! p = Some c).
Proof.
  destruct (pairs_of_spec m (sorted_keys m)) as (ps & Hps & Hfst & Hmem).
  { intros p. by rewrite sorted_keys_elem. }
  exists ps. split; [done|split; [done|]]. intros p c. rewrite Hmem, sorted_keys_elem.
  split; [by intros []|intros Hc; split; [by exists c|done]].
Qed.

(** [list_processes] once [ps] has been read and both passes are done. *)
Lemma list_processes_unfold T ports out mk m ps :
  t_ps_eo T = Ok out ->
  marker_pass ∅ (drop 1 (py_splitlines (py_strip out))) = Ok mk ->
  port_pass T mk (match ports with [] => DEFAULT_PORTS | _ => ports end) = Ok m ->
  list_processes T ports = Ok ps ->
  ps.*1 = sorted_keys (delete (t_getpid T) m) /\
  (forall p c, (p, c) ∈ ps <-> delete (t_getpid T) m !! p = Some c).
Proof.
  intros Hps Hmk Hm Hrun. unfold list_processes in Hrun.
  rewrite Hps in Hrun. cbn in Hrun. rewrite Hmk in Hrun. cbn in Hrun.
  rewrite Hm in Hrun. cbn in Hrun.
  destruct (pairs_of_sorted_keys (delete (t_getpid T) m)) as (ps' & Hps' & Hfst & Hmem).
  rewrite Hps' in Hrun. injection Hrun as <-. auto.
Qed.

(** [list_processes] returns only after reading [ps] and running both
    passes. *)
Lemma list_processes_inv T ports ps :
  list_processes T ports = Ok ps ->
  exists out mk m, t_ps_eo T = Ok out /\
    marker_pass ∅ (drop 1 (py_splitlines (py_strip out))) = Ok mk /\
    port_pass T mk (match ports with [] => DEFAULT_PORTS | _ => ports end) = Ok m.
Proof.
  unfold list_processes. intros Hrun.
  destruct (t_ps_eo T) as [out|e] eqn:H1; cbn in Hrun; [|done].
  destruct (marker_pass _ _) as [mk|e] eqn:H2; cbn in Hrun; [|done].
  destruct (port_pass _ _ _) as [m|e] eqn:H3; cbn in Hrun; [|done].
  by exists out, mk, m.
Qed.

(** ** Where the entries come from *)

Lemma add_listeners_keeps m ls p c :
  m !! p = Some c -> add_listeners m ls !! p = Some c.
Proof.
  unfold add_listeners. revert m. induction ls as [|[q d] ls IH]; intros m Hp; [done|].
  cbn. apply IH. destruct (m !! q) eqn:E; [done|].
  rewrite lookup_insert_ne; [done|]. intros ->. congruence.
Qed.

Lemma add_listeners_from m ls p c :
  add_listeners m ls !! p = Some c -> m !! p = Some c \/ (p, c) ∈ ls.
Proof.
  unfold add_listeners. revert m. induction ls as [|[q d] ls IH]; intros m Hp; [by left|].
  cbn in Hp. apply IH in Hp as [Hp|Hp]; [|right; set_solver].
  destruct (m !! q) eqn:E; [by left|].
  destruct (decide (q = p)) as [->|Hne].
  - rewrite lookup_insert_eq in Hp. injection Hp as ->. right. set_solver.
  - rewrite lookup_insert_ne in Hp by done. by left.
Qed.

Lemma port_pass_keeps T m ports m' p c :
  port_pass T m ports = Ok m' -> m !! p = Some c -> m' !! p = Some c.
Proof.
  revert m. induction ports as [|port ports IH]; intros m Hrun Hp; cbn in Hrun.
  - by injection Hrun as <-.
  - destruct (Listeners.list_listeners_on_port T port) as [ls|e]; cbn in Hrun; [|done].
    eapply IH; [exact Hrun|]. by apply add_listeners_keeps.
Qed.

Lemma port_pass_from T m ports m' p c :
  port_pass T m ports = Ok m' -> m' !! p = Some c ->
  m !! p = Some c \/
  exists port ls, port ∈ ports /\ Listeners.list_listeners_on_port T port = Ok ls /\ (p, c) ∈ ls.
Proof.
  revert m. induction ports as [|port ports IH]; intros m Hrun Hp; cbn in Hrun.
  - injection Hrun as <-. by left.
  - destruct (Listeners.list_listeners_on_port T port) as [ls|e] eqn:Hl; cbn in Hrun; [|done].
    destruct (IH _ Hrun Hp) as [Hp'|(port' & ls' & Hin & Hl' & Hmem)].
    + apply add_listeners_from in Hp' as [Hp'|Hp']; [by left|].
      right. exists port, ls. set_solver.
    + right. exists port', ls'. set_solver.
Qed.

(** A [ps] data line that [marker_line] keeps. *)
Definition marker_entry (line : string) (p : Z) (c : string) : Prop :=
  exists pid_str, py_split_max1 (py_strip line) = [pid_str; c] /\
    py_int pid_str = Ok p /\ has_marker (py_lower c) = true.

Lemma marker_pass_from m lines m' p c :
  marker_pass m lines = Ok m' -> m' !! p = Some c ->
  m !! p = Some c \/ exists line, line ∈ lines /\ marker_entry line p c.
Proof.
  revert m. induction lines as [|line lines IH]; intros m Hrun Hp; cbn in Hrun.
  - injection Hrun as <-. by left.
  - destruct (marker_line m line) as [m1|e] eqn:Hl; cbn in Hrun; [|done].
    destruct (IH _ Hrun Hp) as [Hp1|(l & Hin & He)]; [|right; exists l; set_solver].
    unfold marker_line in Hl.
    destruct (py_split_max1 (py_strip line)) as [|pid_str [|cmd [|]]] eqn:Hs;
      cbn -[has_marker py_lower] in Hl; try (injection Hl as <-; by left).
    destruct (py_int pid_str) as [q|e] eqn:Hi; cbn -[has_marker py_lower] in Hl; [|done].
    injection Hl as <-. destruct (has_marker (py_lower cmd)) eqn:Hm;
      rewrite ?Hm in Hp1; [|by left].
    destruct (decide (q = p)) as [->|Hne].
    + rewrite lookup_insert_eq in Hp1. injection Hp1 as ->.
      right. exists line. split; [set_solver|]. by exists pid_str.
    + rewrite lookup_insert_ne in Hp1 by done. by left.
Qed.

(** C12: what [list_processes] lists.  Every entry is a process other than
    the script, whose [ps] line carries a marker, or which [lsof]/[ss]
    report listening on one of the ports ([DEFAULT_PORTS] when none is
    given), with the command line that source gave; and a marker
    process's own [ps] command line is never displaced by a port
    listener's. *)
Theorem list_processes_members T ports out mk ps :
  t_ps_eo T = Ok out ->
  marker_pass ∅ (drop 1 (py_splitlines (py_strip out))) = Ok mk ->
  list_processes T ports = Ok ps ->
  (forall p c, mk !! p = Some c -> p <> t_getpid T -> (p, c) ∈ ps) /\
  (forall p c, (p, c) ∈ ps ->
     p <> t_getpid T /\
     ((exists line, line ∈ drop 1 (py_splitlines (py_strip out)) /\ marker_entry line p c) \/
      (exists port ls, port ∈ (match ports with [] => DEFAULT_PORTS | _ => ports end) /\
         Listeners.list_listeners_on_port T port = Ok ls /\ (p, c) ∈ ls))).
Proof.
  intros Hps Hmk Hrun.
  destruct (list_processes_inv T ports ps Hrun) as (out' & mk' & m & H1 & H2 & H3).
  rewrite Hps in H1. injection H1 as <-. rewrite Hmk in H2. injection H2 as <-.
  destruct (list_processes_unfold T ports out mk m ps Hps Hmk H3 Hrun) as [_ Hmem].
  split.
  - intros p c Hp Hne. apply Hmem. rewrite lookup_delete_ne by congruence.
    by apply (port_pass_keeps T mk _ m _ _ H3).
  - intros p c Hin. apply Hmem in Hin.
    destruct (decide (p = t_getpid T)) as [->|Hne];
      [by rewrite lookup_delete_eq in Hin|rewrite lookup_delete_ne in Hin by congruence].
    split; [done|].
    destruct (port_pass_from T mk _ m p c H3 Hin) as [Hk|Hl]; [left|by right].
    destruct (marker_pass_from ∅ _ mk p c Hmk Hk) as [He|He]; [by rewrite lookup_empty in He|done].
Qed.

(** ** The error path *)

Lemma marker_pass_raises m lines e :
  marker_pass m lines = Exn e -> e = ValueError.
Proof.
  revert m. induction lines as [|line lines IH]; intros m Hrun; cbn in Hrun; [done|].
  destruct (marker_line m line) as [m1|e1] eqn:Hl; cbn in Hrun; [by apply (IH m1)|].
  injection Hrun as <-. unfold marker_line in Hl.
  destruct (py_split_max1 (py_strip line)) as [|pid_str [|cmd [|]]];
    cbn -[py_int has_marker py_lower] in Hl; try done.
  destruct (py_int pid_str) as [|e2] eqn:Hi; cbn -[has_marker py_lower] in Hl;
    [cbv [mret res_ret] in Hl; by destruct (has_marker (py_lower cmd))|].
  injection Hl as <-. unfold py_int in Hi.
  destruct (int_signed (py_strip pid_str)); congruence.
Qed.

Lemma marker_pass_bad_line m lines line pid_str cmd :
  line ∈ lines -> py_split_max1 (py_strip line) = [pid_str; cmd] ->
  (exists e, py_int pid_str = Exn e) ->
  marker_pass m lines = Exn ValueError.
Proof.
  intros Hin Hs [e He].
  destruct (marker_pass m lines) as [m'|e'] eqn:Hrun; [|by rewrite (marker_pass_raises _ _ _ Hrun)].
  exfalso. revert m Hrun. induction lines as [|l lines IH]; intros m Hrun; [set_solver|].
  cbn in Hrun. destruct (marker_line m l) as [m1|e1] eqn:Hl; cbn in Hrun; [|done].
  apply elem_of_cons in Hin as [->|Hin]; [|by apply (IH Hin m1)].
  unfold marker_line in Hl. rewrite Hs, He in Hl. done.
Qed.

(** C17: a data line of [ps] with two fields whose first is not an
    integer makes [int(pid_str)] raise [ValueError], which nothing in
    [list_processes] catches: the whole listing fails, not only that
    line. *)
Theorem list_processes_bad_pid T ports out line pid_str cmd :
  t_ps_eo T = Ok out -> line ∈ drop 1 (py_splitlines (py_strip out)) ->
  py_split_max1 (py_strip line) = [pid_str; cmd] -> (exists e, py_int pid_str = Exn e) ->
  list_processes T ports = Exn ValueError.
Proof.
  intros Hps Hin Hs Hbad. unfold list_processes. rewrite Hps. cbn.
  by rewrite (marker_pass_bad_line ∅ _ line pid_str cmd Hin Hs Hbad).
Qed.

(** The script never lists itself. *)
Lemma list_processes_no_self T ports ps :
  list_processes T ports = Ok ps -> t_getpid T ∉ ps.*1.
Proof.
  intros Hrun. destruct (list_processes_inv T ports ps Hrun) as (out & mk & m & H1 & H2 & H3).
  destruct (list_processes_unfold T ports out mk m ps H1 H2 H3 Hrun) as [-> _].
  rewrite sorted_keys_elem, lookup_delete_eq. by intros [].
Qed.

(** C3: the list [list_processes] returns is strictly increasing in pid
    (so it names no process twice) and never contains the script's own
    pid. *)
Theorem list_processes_sorted_no_self T ports ps :
  list_processes T ports = Ok ps ->
  StronglySorted Z.lt ps.*1 /\ t_getpid T ∉ ps.*1.
Proof.
  intros Hrun. destruct (list_processes_inv T ports ps Hrun) as (out & mk & m & H1 & H2 & H3).
  destruct (list_processes_unfold T ports out mk m ps H1 H2 H3 Hrun) as [-> _].
  split; [apply sorted_keys_sorted|].
  rewrite sorted_keys_elem, lookup_delete_eq. by intros [].
Qed.

(** ** Concrete runs *)

Definition nl : string := String "010"%char "".

Definition demo_ps : string :=
  ("    PID CMD" ++ nl ++
   "      1 /sbin/init" ++ nl ++
   "    500 node node_modules/.bin/jest --runInBand" ++ nl ++
   "    600 python3 scripts/kill.py" ++ nl ++
   "    700 node server.js" ++ nl ++
   "    800 vim notes.txt" ++ nl)%string.

(** Pid 500 has a marker and also listens on 8081; pid 700 listens on
    8082 and is found by [ss] after [lsof] exits with status 1; the
    script is pid 600. *)
Definition demo_tools : tools := {|
  t_ps_eo := Ok demo_ps;
  t_ps_cmd := fun pid => if decide (pid = 700) then Ok ("node server.js" ++ nl)%string
                         else if decide (pid = 500) then Ok "node jest"%string
                         else Exn CalledProcessError;
  t_lsof := fun port => if decide (port = 8081)
                        then Ok ("COMMAND PID USER FD TYPE DEVICE SIZE/OFF NODE NAME" ++ nl ++
                                 "node 500 dev 23u IPv6 0x1 0t0 TCP *:8081 (LISTEN)" ++ nl)%string
                        else Exn CalledProcessError;
  t_ss := Ok ("LISTEN 0 511 *:8082 *:* users:((node,pid=700,fd=20))" ++ nl)%string;
  t_ps_aux := Ok "";
  t_getpid := 600
|}.


Example demo_list_processes :
  list_processes demo_tools [] =
    Ok [(500, "node node_modules/.bin/jest --runInBand"); (700, "node server.js")].
Proof. vm_compute. reflexivity. Qed.

Lemma list_processes_sorted_no_self_witness :
  list_processes demo_tools [] =
    Ok [(500, "node node_modules/.bin/jest --runInBand"); (700, "node server.js")] /\
  (StronglySorted Z.lt [500; 700] /\ 600 ∉ [500; 700]).
Proof.
  assert (list_processes demo_tools [] =
    Ok [(500, "node node_modules/.bin/jest --runInBand"); (700, "node server.js")]) as H
    by (vm_compute; reflexivity).
  split; [exact H|]. exact (list_processes_sorted_no_self demo_tools [] _ H).
Defined.

Lemma list_processes_members_witness :
  exists mk, t_ps_eo demo_tools = Ok demo_ps /\
    marker_pass ∅ (drop 1 (py_splitlines (py_strip demo_ps))) = Ok mk /\
    list_processes demo_tools [] =
      Ok [(500, "node node_modules/.bin/jest --runInBand"); (700, "node server.js")] /\
    mk !! 500 = Some "node node_modules/.bin/jest --runInBand"%string /\
    (500, "node node_modules/.bin/jest --runInBand"%string) ∈
      [(500, "node node_modules/.bin/jest --runInBand"); (700, "node server.js")].
Proof.
  eexists. assert (t_ps_eo demo_tools = Ok demo_ps) as H1 by reflexivity.
  assert (marker_pass ∅ (drop 1 (py_splitlines (py_strip demo_ps)))
          = Ok (<[500 := "node node_modules/.bin/jest --runInBand"%string]> ∅)) as H2
    by (vm_compute; reflexivity).
  assert (list_processes demo_tools [] =
    Ok [(500, "node node_modules/.bin/jest --runInBand"); (700, "node server.js")]) as H3
    by (vm_compute; reflexivity).
  split; [exact H1|split; [exact H2|split; [exact H3|split; [reflexivity|]]]].
  apply (proj1 (list_processes_members demo_tools [] demo_ps _ _ H1 H2 H3));
    [reflexivity|cbn; lia].
Defined.

(** A [ps] line whose pid column is not a number. *)
Definition bad_ps : string :=
  ("    PID CMD" ++ nl ++ "    abc jest --watch" ++ nl ++ "    700 node server.js" ++ nl)%string.

Definition bad_tools : tools :=
  mk_tools (Ok bad_ps) (t_ps_cmd demo_tools) (t_lsof demo_tools) (t_ss demo_tools)
           (t_ps_aux demo_tools) (t_getpid demo_tools).

Lemma list_processes_bad_pid_witness :
  t_ps_eo bad_tools = Ok bad_ps /\
  "    abc jest --watch"%string ∈ drop 1 (py_splitlines (py_strip bad_ps)) /\
  py_split_max1 (py_strip "    abc jest --watch") = ["abc"; "jest --watch"]%string /\
  (exists e, py_int "abc" = Exn e) /\
  list_processes bad_tools [] = Exn ValueError.
Proof.
  assert (t_ps_eo bad_tools = Ok bad_ps) as H1 by reflexivity.
  assert ("    abc jest --watch"%string ∈ drop 1 (py_splitlines (py_strip bad_ps))) as H2
    by (vm_compute; left).
  assert (py_split_max1 (py_strip "    abc jest --watch") = ["abc"; "jest --watch"]%string)
    as H3 by (vm_compute; reflexivity).
  assert (exists e, py_int "abc" = Exn e) as H4 by (exists ValueError; vm_compute; reflexivity).
  split; [exact H1|split; [exact H2|split; [exact H3|split; [exact H4|]]]].
  exact (list_processes_bad_pid bad_tools [] bad_ps _ _ _ H1 H2 H3 H4).
Defined.

End ListProcs.
