(* ===== verification/PortArgs.v ===== *)
(** * The [-p/--port] arguments of [src/scripts/kill.py]

    [argparse] collects every [-p] value as a string ([None] without any);
    the script splits each at commas, strips the pieces, skips empty ones,
    keeps those [int()] accepts and prints a warning for the others.  The
    result is the list of ports and the warning lines, in order. *)

From S2P Require Import Prelude PyStr.
From Stdlib Require Import Ascii.

Local Open Scope string_scope.

Module PortArgs.

(** One token of [str(item).split(',')]. *)
Definition port_token (acc : list Z * list string) (tok : string) : list Z * list string :=
  let tok := py_strip tok in
  match tok with
  | "" => acc
  | _ =>
      match py_int tok with
      | Ok z => ((acc.1 ++ [z])%list, acc.2)
      | Exn _ =>
          (acc.1, (acc.2 ++ [("Warning: ignoring non-numeric port '" ++ tok ++ "'")%string])%list)
      end
  end.

(** The loop over [args.ports]: the ports and the warnings printed. *)
Definition parse_ports (items : option (list string)) : list Z * list string :=
  match items with
  | None => ([], [])
  | Some items =>
      foldl (fun acc item => foldl port_token acc (py_split_sep "," item)) ([], []) items
  end.

(** ** Lemmas on splitting at a separator *)

Lemma string_app_cons c s t : String c s +:+ t = String c (s +:+ t).
Proof. reflexivity. Qed.

Lemma string_app_nil_r s : s +:+ "" = s.
Proof. induction s as [|c s IH]; [done|]. rewrite string_app_cons. by f_equal. Qed.

Lemma rev_app_app s a b : String.rev_app (String.rev_app s a) b = String.rev_app a (s +:+ b).
Proof.
  revert a. induction s as [|c s IH]; intros a; [done|].
  cbn [String.rev_app]. rewrite IH. done.
Qed.

Lemma rev_rev_app s : String.rev (String.rev_app s "") = s.
Proof. unfold String.rev. rewrite rev_app_app. cbn. apply string_app_nil_r. Qed.

Lemma split_sep_go_app sep cur s rest :
  str_forallb (fun c => negb (Ascii.eqb c sep)) s = true ->
  split_sep_go sep cur (s +:+ rest) = split_sep_go sep (String.rev_app s cur) rest.
Proof.
  revert cur. induction s as [|c s IH]; intros cur Hs; [done|].
  cbn in Hs. apply andb_prop in Hs as [Hc Hs]. rewrite string_app_cons. cbn.
  apply negb_true_iff in Hc. rewrite Hc. by apply IH.
Qed.

(** Splitting the comma-joined pieces gives the pieces back when none of
    them holds a comma. *)
Lemma split_sep_concat sep strs :
  strs <> [] -> Forall (fun s => str_forallb (fun c => negb (Ascii.eqb c sep)) s = true) strs ->
  py_split_sep sep (String.concat (String sep "") strs) = strs.
Proof.
  unfold py_split_sep. intros Hne Hall. induction Hall as [|s strs Hs Hall IH]; [done|].
  destruct strs as [|s' strs].
  - cbn [String.concat]. rewrite <- (string_app_nil_r s) at 1.
    rewrite split_sep_go_app by done. cbn. by rewrite rev_rev_app.
  - cbn [String.concat]. rewrite split_sep_go_app by done.
    cbn [String.app]. rewrite string_app_cons. cbn. rewrite Ascii.eqb_refl.
    rewrite rev_rev_app. f_equal. by apply IH.
Qed.

Lemma digit_char_not_comma d : (0 <= d < 10)%Z -> Ascii.eqb (digit_char d) "," = false.
Proof.
  intros Hd.
  assert (d = 0 \/ d = 1 \/ d = 2 \/ d = 3 \/ d = 4 \/ d = 5 \/ d = 6
          \/ d = 7 \/ d = 8 \/ d = 9)%Z as Hc by lia.
  repeat destruct Hc as [-> | Hc]; [..| subst]; reflexivity.
Qed.

Lemma str_nat_go_no_comma f n acc :
  str_forallb (fun c => negb (Ascii.eqb c ",")) acc = true -> (0 <= n)%Z ->
  str_forallb (fun c => negb (Ascii.eqb c ",")) (str_nat_go f n acc) = true.
Proof.
  revert n acc. induction f as [|f IH]; intros n acc Hacc Hn; cbn [str_nat_go]; [done|].
  destruct (Z.ltb_spec n 10).
  - cbn. by rewrite Hacc, digit_char_not_comma by lia.
  - apply IH; [|apply Z.div_pos; lia]. cbn.
    rewrite Hacc, digit_char_not_comma; [done|]. apply Z.mod_pos_bound; lia.
Qed.

Lemma py_str_Z_no_comma z :
  str_forallb (fun c => negb (Ascii.eqb c ",")) (py_str_Z z) = true.
Proof.
  unfold py_str_Z, str_nat. destruct (Z.ltb_spec z 0).
  - cbn [str_forallb]. rewrite str_nat_go_no_comma; [done|done|lia].
  - apply str_nat_go_no_comma; [done|lia].
Qed.

Lemma py_str_Z_strip z : py_strip (py_str_Z z) = py_str_Z z.
Proof.
  apply strip_nonspace. unfold py_str_Z. destruct (Z.ltb_spec z 0).
  - cbn. apply decimal_nonspace, str_nat_decimal. lia.
  - apply decimal_nonspace, str_nat_decimal. lia.
Qed.

Lemma py_str_Z_nonempty z : py_str_Z z <> "".
Proof. unfold py_str_Z. destruct (z <? 0)%Z; [done|apply str_nat_nonempty]. Qed.

Lemma foldl_port_token_str acc zs :
  foldl port_token acc (map py_str_Z zs) = ((acc.1 ++ zs)%list, acc.2).
Proof.
  revert acc. induction zs as [|z zs IH]; intros [ps ws]; cbn [map foldl].
  - by rewrite app_nil_r.
  - unfold port_token at 2. rewrite py_str_Z_strip.
    destruct (py_str_Z z) eqn:E; [by apply py_str_Z_nonempty in E|].
    rewrite <- E, py_int_str_Z, IH. cbn. by rewrite <- app_assoc.
Qed.

(** Tokens that [int()] rejects add no port. *)
Lemma foldl_port_token_invalid acc toks :
  (forall tok z, tok ∈ toks -> py_int (py_strip tok) <> Ok z) ->
  (foldl port_token acc toks).1 = acc.1.
Proof.
  revert acc. induction toks as [|tok toks IH]; intros acc Hbad; [done|].
  cbn [foldl]. rewrite IH by (intros t z' Ht; apply Hbad; set_solver).
  unfold port_token. destruct (py_strip tok) eqn:Hs; [done|].
  destruct (py_int _) as [z|] eqn:Hz; [|done].
  rewrite <- Hs in Hz. exfalso. by apply (Hbad tok z); [set_solver|].
Qed.

(** When [int()] rejects every token of every [-p] value, the port list
    is empty. *)
Lemma parse_ports_none_valid items :
  (forall item tok z, item ∈ items -> tok ∈ py_split_sep "," item -> py_int (py_strip tok) <> Ok z) ->
  (parse_ports (Some items)).1 = [].
Proof.
  intros Hbad. cbn [parse_ports].
  assert (forall acc, (foldl (fun acc item => foldl port_token acc (py_split_sep "," item)) acc items).1
                      = acc.1) as Hgen; [|by apply (Hgen ([], []))].
  induction items as [|item items IH]; intros acc; [done|]. cbn [foldl].
  rewrite IH by (intros i t z' Hi Ht; apply (Hbad i); [set_solver|done]).
  apply foldl_port_token_invalid. intros tok z Ht. apply (Hbad item); [set_solver|done].
Qed.

(** C13: printing a list of ports as one comma-separated [-p] value and
    parsing it back gives the same ports and no warning: [int()] inverts
    [str()] on every integer and no decimal text holds a comma or
    surrounding whitespace. *)
Theorem parse_ports_roundtrip zs :
  parse_ports (Some [String.concat "," (map py_str_Z zs)]) = (zs, []).
Proof.
  cbn [parse_ports foldl]. destruct zs as [|z zs]; [reflexivity|].
  rewrite split_sep_concat.
  - by rewrite foldl_port_token_str.
  - done.
  - apply Forall_forall. intros s Hs. apply list_elem_of_fmap in Hs as (z' & -> & _).
    apply py_str_Z_no_comma.
Qed.

End PortArgs.
