(* ===== verification/Emulator.v ===== *)
(** * [src/utls/kill_android_emulator.py]

    [get_emulator_pids] runs [ps aux] and keeps, in order, every line
    that contains [emulator] and not [grep], with [int(parts[1])] as its
    pid; any exception ([ps] missing, a short line, a pid that is not a
    number) is caught by [except Exception], which prints a message and
    returns [[]].  [kill_emulators] prints what it found and sends
    [os.kill(pid, 9)] to each entry in order, printing a message for each
    failure.  The text of an exception ([str(e)]) is a parameter of the
    section: the theorems do not depend on it. *)

From S2P Require Import Prelude PyStr PyOS.
From Stdlib Require Import Ascii.

Local Open Scope py_scope.

Module Emulator.

(** [{'pid': pid, 'cmd': line}] *)
Record eproc : Type := mk_eproc {
  e_pid : Z;
  e_cmd : string
}.

(** ['emulator' in line and not 'grep' in line] *)
Definition emulator_line (line : string) : bool :=
  py_contains "emulator" line && negb (py_contains "grep" line).

(** One iteration of the loop over [ps aux]. *)
Definition emulator_step (emulator_procs : list eproc) (line : string) : res (list eproc) :=
  if emulator_line line then
    part ← py_getitem (py_split line) 1%nat;
    pid ← py_int part;
    mret (emulator_procs ++ [mk_eproc pid line])
  else mret emulator_procs.

(** The entry of one matching line, and the whole listing as a filter and
    a map over the lines: the loop computes it ([emulator_fold]), and
    [emulator_entries_matching] relates it to the filter written with the
    builtins. *)
Definition emulator_entry (line : string) : res eproc :=
  part ← py_getitem (py_split line) 1%nat;
  pid ← py_int part;
  mret (mk_eproc pid line).

Definition emulator_entries (lines : list string) : res (list eproc) :=
  mapM emulator_entry (List.filter emulator_line lines).

(** ** The listing *)

Lemma emulator_step_entry acc line :
  emulator_step acc line =
  if emulator_line line then (e ← emulator_entry line; mret (acc ++ [e])) else mret acc.
Proof.
  unfold emulator_step, emulator_entry. destruct (emulator_line line); [|done].
  cbv [mbind res_bind]. destruct (py_getitem _ _); [|done]. by destruct (py_int _).
Qed.

(** The accumulating loop computes the filter and map, with the first
    exception of a matching line. *)
Lemma emulator_fold {S} lines acc (s : S) :
  py_foldM lines acc (fun acc line => py_lift (emulator_step acc line)) s =
  (match emulator_entries lines with Ok es => Ok (acc ++ es) | Exn e => Exn e end, s).
Proof.
  unfold emulator_entries. revert acc. induction lines as [|l lines IH]; intros acc.
  - cbn. by rewrite app_nil_r.
  - cbn [py_foldM List.filter]. rewrite emulator_step_entry.
    destruct (emulator_line l); cbn [mapM]; cbv [mbind pym_bind res_bind mret res_ret py_lift].
    + destruct (emulator_entry l) as [e|e]; [|done].
      rewrite IH. destruct (mapM _ _); [|done]. by rewrite <- app_assoc.
    + apply IH.
Qed.

Lemma emulator_entries_raises lines : res_raises is_Exception (emulator_entries lines).
Proof.
  unfold emulator_entries. induction (List.filter emulator_line lines) as [|l ls IH]; [done|].
  cbn [mapM]. unfold emulator_entry, py_getitem. cbv [mbind res_bind mret res_ret].
  destruct (py_split l !! 1%nat); [|done].
  pose proof (py_int_raises s) as Hi. destruct (py_int s); [|done].
  destruct (mapM _ _); done.
Qed.

(** ** What the scan should find, written with the [str] builtins *)

(** The lines of [ps aux] that mention [emulator] and not [grep]. *)
Definition matching_lines (out : string) : list string :=
  List.filter (fun l => py_contains "emulator" l && negb (py_contains "grep" l)) (py_splitlines out).

(** [int(line.split()[1])] succeeds with [z]. *)
Definition pid_field (line : string) (z : Z) : Prop :=
  exists f, py_split line !! 1%nat = Some f /\ py_int f = Ok z.

Lemma emulator_entry_Ok line e :
  emulator_entry line = Ok e <-> e_cmd e = line /\ pid_field line (e_pid e).
Proof.
  unfold emulator_entry, pid_field, py_getitem. cbv [mbind res_bind mret res_ret].
  destruct (py_split line !! 1%nat) as [f|]; [|split; [done|by intros (_ & ? & ? & _)]].
  destruct (py_int f) as [z|x] eqn:Hz; split.
  - intros [= <-]. cbn. eauto.
  - destruct e as [z' c]. cbn. intros (-> & f' & [= <-] & Hf). congruence.
  - done.
  - intros (_ & f' & [= <-] & Hf). congruence.
Qed.

Lemma emulator_entry_Exn line :
  (forall z, ~ pid_field line z) -> exists x, emulator_entry line = Exn x.
Proof.
  intros Hno. destruct (emulator_entry line) as [e|x] eqn:He; [|by exists x].
  apply emulator_entry_Ok in He as [_ Hp]. by destruct (Hno _ Hp).
Qed.

(** The monadic map over the matching lines succeeds exactly with the
    entries that pair each line with its pid field. *)
Lemma mapM_entry_Ok lines ps :
  mapM emulator_entry lines = Ok ps <->
  Forall2 (fun e l => e_cmd e = l /\ pid_field l (e_pid e)) ps lines.
Proof.
  revert ps. induction lines as [|l lines IH]; intros ps; [|rewrite mapM_res_cons].
  - split; [intros [= <-]; constructor|intros H; by inversion H].
  - destruct (emulator_entry l) as [e|x] eqn:He.
    + destruct (mapM emulator_entry lines) as [es|x] eqn:Hes; split.
      * intros [= <-]. constructor; [by apply emulator_entry_Ok|by apply IH].
      * intros H. inversion H as [|e' l' ps' ls' Hel Hrest]; subst.
        apply IH in Hrest as [= ->]. apply emulator_entry_Ok in Hel.
        congruence.
      * done.
      * intros H. inversion H as [|e' l' ps' ls' Hel Hrest]; subst.
        by apply IH in Hrest.
    + split; [done|]. intros H. inversion H as [|e' l' ps' ls' Hel Hrest]; subst.
      apply emulator_entry_Ok in Hel. congruence.
Qed.

Lemma mapM_entry_valid lines :
  Forall (fun l => exists z, pid_field l z) lines ->
  exists ps, mapM emulator_entry lines = Ok ps.
Proof.
  induction 1 as [|l lines [z Hz] _ [ps IH]]; [by exists []|].
  exists (mk_eproc z l :: ps). rewrite mapM_res_cons.
  rewrite (proj2 (emulator_entry_Ok l (mk_eproc z l))) by done. by rewrite IH.
Qed.

Lemma mapM_entry_invalid lines :
  Exists (fun l => forall z, ~ pid_field l z) lines ->
  exists x, mapM emulator_entry lines = Exn x.
Proof.
  induction 1 as [l lines Hl|l lines _ [x IH]]; rewrite mapM_res_cons.
  - destruct (emulator_entry_Exn l Hl) as [x ->]. by exists x.
  - destruct (emulator_entry l); [rewrite IH|]; eauto.
Qed.

Lemma emulator_entries_matching out :
  emulator_entries (py_splitlines out) = mapM emulator_entry (matching_lines out).
Proof. reflexivity. Qed.

Section Emulator.
Context {OS : Type} `{SignalOSLaws OS}.
(** [sched] as in [PyOS]; [exc_str e] is [str(e)]. *)
Context (T : tools) (sched : nat -> list Z) (exc_str : exc -> string).

Definition get_emulator_pids : PyM (world OS) (list eproc) :=
  try_except
    (py_lift (t_ps_aux T) ≫= (fun out : string =>
     py_foldM (py_splitlines out) [] (fun acc line => py_lift (emulator_step acc line))))
    is_Exception
    (fun e => py_print ("Error detecting emulator processes: " ++ exc_str e)%string ;;; mret []).

(** [for proc in emulator_procs: print(...)] *)
Definition print_found (procs : list eproc) : PyM (world OS) unit :=
  py_for procs (fun p => py_print ("  PID: " ++ py_str_Z (e_pid p) ++ " | CMD: " ++ e_cmd p)%string).

(** The body of the killing loop. *)
Definition kill_one (p : eproc) : PyM (world OS) unit :=
  try_except
    (py_print ("Killing emulator process PID " ++ py_str_Z (e_pid p) ++ "...")%string ;;;
     os_kill (t_getpid T) sched (e_pid p) SIGKILL)
    is_Exception
    (fun e => py_print ("Failed to kill PID " ++ py_str_Z (e_pid p) ++ ": " ++ exc_str e)%string).

Definition kill_emulators : PyM (world OS) unit :=
  get_emulator_pids ≫= (fun procs : list eproc =>
  match procs with
  | [] => py_print "No Android emulator processes found."
  | _ =>
      py_print ("Found " ++ py_str_Z (Z.of_nat (length procs)) ++ " Android emulator process(es):")%string ;;;
      print_found procs ;;;
      py_for procs kill_one
  end).

(** ** Signalling *)

Lemma OSError_Exception e : is_OSError e = true -> is_Exception e = true.
Proof. by destruct e. Qed.

(** When the listing succeeds nothing is printed and no system call is
    made. *)
Lemma get_emulator_pids_ok out procs w :
  t_ps_aux T = Ok out -> emulator_entries (py_splitlines out) = Ok procs ->
  get_emulator_pids w = (Ok procs, w).
Proof.
  intros Hps He. unfold get_emulator_pids, try_except.
  by rewrite py_lift_bind, Hps, emulator_fold, He.
Qed.

(** One iteration on another process never raises; it leaves the pid
    dead or beyond the program's permission. *)
Lemma kill_one_other p w :
  e_pid p <> t_getpid T -> os_alive (w_os w) (t_getpid T) = true ->
  fst (kill_one p w) = Ok tt /\ evolves (w_os w) (w_os (snd (kill_one p w))) /\
  os_alive (w_os (snd (kill_one p w))) (t_getpid T) = true /\
  (os_alive (w_os (snd (kill_one p w))) (e_pid p) = true ->
   os_allowed (w_os (snd (kill_one p w))) (e_pid p) = false).
Proof.
  intros Hne Hme. unfold kill_one. py_run. cbv [py_print].
  match goal with |- context [os_kill _ _ _ SIGKILL ?w0] => set (w1 := w0) in * end.
  destruct (os_kill_sigkill (t_getpid T) sched (e_pid p) w1 Hne Hme) as [Hr Hd].
  destruct (os_kill_world (t_getpid T) sched (e_pid p) SIGKILL w1 Hne Hme) as [Hev Hme2].
  destruct (os_kill (t_getpid T) sched (e_pid p) SIGKILL w1) as [[[]|e] w2]; cbn in *;
    [done|]. by rewrite OSError_Exception.
Qed.

(** The killing loop over entries that are not the program itself. *)
Lemma kill_loop_others ps w :
  t_getpid T ∉ e_pid <$> ps -> os_alive (w_os w) (t_getpid T) = true ->
  fst (py_for ps kill_one w) = Ok tt /\ evolves (w_os w) (w_os (snd (py_for ps kill_one w))) /\
  os_alive (w_os (snd (py_for ps kill_one w))) (t_getpid T) = true /\
  (forall pid, pid ∈ e_pid <$> ps -> os_alive (w_os (snd (py_for ps kill_one w))) pid = true ->
     os_allowed (w_os (snd (py_for ps kill_one w))) pid = false).
Proof.
  revert w. induction ps as [|p ps IH]; intros w Hnot Hme.
  { cbn. split; [done|]. split; [reflexivity|]. split; [done|]. by intros ? ?%not_elem_of_nil. }
  rewrite fmap_cons, elem_of_cons in Hnot.
  destruct (kill_one_other p w) as (Hr & Hev & Hme1 & Hd); [naive_solver|done|].
  destruct (IH (snd (kill_one p w))) as (Hr' & Hev' & Hme2 & Hd'); [naive_solver|done|].
  cbn [py_for]. cbv [mbind pym_bind]. destruct (kill_one p w) as [r w1]. cbn [fst snd] in *; subst r.
  split; [done|]. split; [by etrans|]. split; [done|].
  intros pid Hpid Ha. rewrite fmap_cons, elem_of_cons in Hpid.
  destruct Hpid as [->|Hpid]; [|by apply Hd'].
  destruct (Hev' _ Ha) as [Ha1 ->]. by apply Hd.
Qed.

(** The iteration on the program's own entry ends the program. *)
Lemma kill_one_self p w :
  e_pid p = t_getpid T -> os_alive (w_os w) (t_getpid T) = true ->
  os_allowed (w_os w) (t_getpid T) = true ->
  fst (kill_one p w) = Exn (ProcessKilled 9).
Proof.
  intros Hp Hme Hal. unfold kill_one. py_run. unfold py_print at 1. rewrite Hp.
  pose proof (os_kill_self (t_getpid T) sched (mk_world (w_os w) (w_out w ++ [("Killing emulator process PID " ++ py_str_Z (t_getpid T) ++ "...")%string]) (w_tick w)) Hme Hal) as Hk.
  destruct (os_kill _ _ _ _ _) as [r w2]. cbn in Hk. by subst r.
Qed.

Lemma print_found_spec procs w :
  exists out, print_found procs w = (Ok tt, mk_world (w_os w) out (w_tick w)).
Proof.
  unfold print_found. revert w.
  induction procs as [|p procs IH]; intros w; py_run; [destruct w; by eexists|].
  cbn. match goal with |- context [py_for procs _ ?w0] => destruct (IH w0) as [out ->] end.
  by eexists.
Qed.

(** After a successful listing with entries, the run is the killing loop
    from a world that only printed. *)
Lemma kill_emulators_run out procs w :
  t_ps_aux T = Ok out -> emulator_entries (py_splitlines out) = Ok procs -> procs <> [] ->
  exists out', kill_emulators w = py_for procs kill_one (mk_world (w_os w) out' (w_tick w)).
Proof.
  intros Hps He Hne. unfold kill_emulators. cbv [mbind pym_bind].
  rewrite (get_emulator_pids_ok out procs w Hps He).
  destruct procs as [|p procs']; [done|]. cbv [py_print].
  match goal with |- context [print_found ?ps ?w0] =>
    destruct (print_found_spec ps w0) as [out' ->] end.
  by exists out'.
Qed.

(** C11: [get_emulator_pids] on a [ps aux] output: when every line that
    mentions [emulator] and not [grep] has a second field that [int()]
    accepts, it returns one entry per such line, in order, with that
    pid and the whole line; when one such line has none, it prints an
    error and returns no entry at all, however many lines were fine.
    It sends no signal and makes no other system call. *)
Theorem get_emulator_pids_spec w out :
  t_ps_aux T = Ok out ->
  w_os (snd (get_emulator_pids w)) = w_os w /\ w_tick (snd (get_emulator_pids w)) = w_tick w /\
  (Forall (fun l => exists z, pid_field l z) (matching_lines out) ->
   exists procs, fst (get_emulator_pids w) = Ok procs /\
     Forall2 (fun e l => e_cmd e = l /\ pid_field l (e_pid e)) procs (matching_lines out)) /\
  (Exists (fun l => forall z, ~ pid_field l z) (matching_lines out) ->
   fst (get_emulator_pids w) = Ok [] /\
   exists e, w_out (snd (get_emulator_pids w)) =
             w_out w ++ [("Error detecting emulator processes: " ++ exc_str e)%string]).
Proof.
  intros Hps. unfold get_emulator_pids, try_except.
  rewrite py_lift_bind, Hps, emulator_fold, emulator_entries_matching.
  pose proof (emulator_entries_raises (py_splitlines out)) as Hr.
  rewrite emulator_entries_matching in Hr.
  destruct (mapM emulator_entry (matching_lines out)) as [ps|x] eqn:Hm.
  - split; [done|split; [done|split]].
    + intros _. exists ps. split; [done|]. by apply mapM_entry_Ok.
    + intros Hex. destruct (mapM_entry_invalid _ Hex) as [x Hx]. congruence.
  - cbn in Hr. rewrite Hr. cbn. split; [done|split; [done|split]].
    + intros Hall. destruct (mapM_entry_valid _ Hall) as [ps Hps']. congruence.
    + intros _. split; [done|]. by exists x.
Qed.

(** C7: when the program's own pid is not among the entries, the run
    ends normally and afterwards every listed process is dead or one the
    program may not signal; no process is born. *)
Theorem kill_emulators_signals_all w out procs :
  t_ps_aux T = Ok out -> emulator_entries (py_splitlines out) = Ok procs ->
  t_getpid T ∉ e_pid <$> procs -> os_alive (w_os w) (t_getpid T) = true ->
  fst (kill_emulators w) = Ok tt /\ evolves (w_os w) (w_os (snd (kill_emulators w))) /\
  (forall pid, pid ∈ e_pid <$> procs -> os_alive (w_os (snd (kill_emulators w))) pid = true ->
     os_allowed (w_os (snd (kill_emulators w))) pid = false).
Proof.
  intros Hps He Hnot Hme. destruct procs as [|p procs'].
  { unfold kill_emulators. cbv [mbind pym_bind].
    rewrite (get_emulator_pids_ok out [] w Hps He). cbn.
    split; [done|]. split; [reflexivity|]. by intros ? ?%not_elem_of_nil. }
  destruct (kill_emulators_run out (p :: procs') w Hps He) as [out' ->]; [done|].
  by destruct (kill_loop_others (p :: procs') (mk_world (w_os w) out' (w_tick w)) Hnot Hme)
    as (Hr & Hev & _ & Hd).
Qed.

(** C4: [ps aux] lists the script itself, whose command line contains
    [kill_android_emulator.py].  When its entry comes after [pre], the
    run ends with the script killed by its own signal 9 and the entries
    after it are never signalled: the run is the loop over [pre] and the
    script's entry alone. *)
Theorem kill_emulators_self_kill w out pre p post :
  t_ps_aux T = Ok out -> emulator_entries (py_splitlines out) = Ok (pre ++ p :: post) ->
  e_pid p = t_getpid T -> t_getpid T ∉ e_pid <$> pre ->
  os_alive (w_os w) (t_getpid T) = true -> os_allowed (w_os w) (t_getpid T) = true ->
  fst (kill_emulators w) = Exn (ProcessKilled 9) /\
  exists out', kill_emulators w = py_for (pre ++ [p]) kill_one (mk_world (w_os w) out' (w_tick w)).
Proof.
  intros Hps He Hp Hnot Hme Hal.
  destruct (kill_emulators_run out (pre ++ p :: post) w Hps He) as [out' ->];
    [by destruct pre|].
  set (w0 := mk_world (w_os w) out' (w_tick w)).
  destruct (kill_loop_others pre w0 Hnot Hme) as (Hr & Hev & Hme1 & _).
  assert (os_allowed (w_os (snd (py_for pre kill_one w0))) (t_getpid T) = true) as Hal1.
  { destruct (Hev _ Hme1) as [_ ->]. done. }
  pose proof (kill_one_self p _ Hp Hme1 Hal1) as Hk.
  assert (py_for (pre ++ p :: post) kill_one w0 = py_for (pre ++ [p]) kill_one w0 /\
          fst (py_for (pre ++ [p]) kill_one w0) = Exn (ProcessKilled 9)) as [-> Hf].
  { rewrite !py_for_app. cbv [mbind pym_bind].
    destruct (py_for pre kill_one w0) as [r w1]. cbn [fst snd] in *; subst r.
    cbn [py_for]. cbv [mbind pym_bind].
    destruct (kill_one p w1) as [r w2]. cbn in Hk; by subst r. }
  split; [done|]. by exists out'.
Qed.

End Emulator.

(** ** Runs on a concrete [ps aux] *)

Import ProcTable.

Definition nl : string := String "010"%char "".

Definition ps_header : string :=
  "USER  PID %CPU %MEM    VSZ   RSS TTY  STAT START TIME COMMAND".

Definition emu_line_4000 : string :=
  "dev  4000 42.0  9.1 9000000 900000 ?  Sl  10:00 5:00 /opt/android/emulator/qemu-system-x86_64 -avd Pixel_7".
Definition self_line : string :=
  "dev  4242  0.0  0.1  20000  9000 pts/1 S+ 10:30 0:00 python3 src/utls/kill_android_emulator.py".
Definition emu_line_5000 : string :=
  "dev  5000 40.0  9.0 9000000 900000 ?  Sl  10:05 4:00 /opt/android/emulator/qemu-system-x86_64 -avd Pixel_8".
Definition grep_line : string :=
  "dev  4300  0.0  0.0   6000   700 pts/2 S+ 10:31 0:00 grep emulator".

(** The script (pid 4242) sits between two emulators in [ps aux]'s pid
    order. *)
Definition ps_self : string :=
  (ps_header ++ nl ++ emu_line_4000 ++ nl ++ self_line ++ nl ++ emu_line_5000 ++ nl ++ grep_line ++ nl)%string.

(** The same machine when the script was started under another name. *)
Definition ps_other : string :=
  (ps_header ++ nl ++ emu_line_4000 ++ nl ++ emu_line_5000 ++ nl ++ grep_line ++ nl)%string.

Definition emu_tools (ps : string) : tools :=
  mk_tools (Exn FileNotFoundError) (fun _ => Exn FileNotFoundError) (fun _ => Exn FileNotFoundError)
           (Exn FileNotFoundError) (Ok ps) 4242.

Definition emu_table : ptable :=
  PT (list_to_map [(4000, mk_proc "qemu-system-x86_64 -avd Pixel_7" true TermExits);
                   (4242, mk_proc "python3 src/utls/kill_android_emulator.py" true TermExits);
                   (4300, mk_proc "grep emulator" true TermExits);
                   (5000, mk_proc "qemu-system-x86_64 -avd Pixel_8" true TermExits)]).

Definition emu_world : world ptable := mk_world emu_table [] 0.

Definition exc_name (e : exc) : string := "error".

Lemma get_emulator_pids_spec_witness :
  t_ps_aux (emu_tools ps_self) = Ok ps_self /\
  w_os (snd (get_emulator_pids (emu_tools ps_self) exc_name emu_world)) = w_os emu_world /\
  w_tick (snd (get_emulator_pids (emu_tools ps_self) exc_name emu_world)) = w_tick emu_world /\
  (Forall (fun l => exists z, pid_field l z) (matching_lines ps_self) ->
   exists procs, fst (get_emulator_pids (emu_tools ps_self) exc_name emu_world) = Ok procs /\
     Forall2 (fun e l => e_cmd e = l /\ pid_field l (e_pid e)) procs (matching_lines ps_self)) /\
  (Exists (fun l => forall z, ~ pid_field l z) (matching_lines ps_self) ->
   fst (get_emulator_pids (emu_tools ps_self) exc_name emu_world) = Ok [] /\
   exists e, w_out (snd (get_emulator_pids (emu_tools ps_self) exc_name emu_world)) =
             w_out emu_world ++ [("Error detecting emulator processes: " ++ exc_name e)%string]).
Proof.
  assert (t_ps_aux (emu_tools ps_self) = Ok ps_self) as H1 by reflexivity.
  split; [exact H1|].
  exact (get_emulator_pids_spec (emu_tools ps_self) exc_name emu_world ps_self H1).
Defined.

(** The three matching lines of [ps_self] all carry a pid: the script's
    own line is one of them. *)
Example ps_self_matching :
  matching_lines ps_self = [emu_line_4000; self_line; emu_line_5000].
Proof. vm_compute. reflexivity. Qed.

(** One short matching line discards every entry: [ps] output with a
    line that is the word [emulator] alone lists nothing. *)
Example get_emulator_pids_all_or_nothing :
  get_emulator_pids (emu_tools (ps_other ++ "emulator" ++ nl)%string) exc_name emu_world =
  (Ok [], mk_world emu_table ["Error detecting emulator processes: error"] 0).
Proof. vm_compute. reflexivity. Qed.

Lemma kill_emulators_signals_all_witness :
  t_ps_aux (emu_tools ps_other) = Ok ps_other /\
  emulator_entries (py_splitlines ps_other) =
    Ok [mk_eproc 4000 emu_line_4000; mk_eproc 5000 emu_line_5000] /\
  t_getpid (emu_tools ps_other) ∉ e_pid <$> [mk_eproc 4000 emu_line_4000; mk_eproc 5000 emu_line_5000] /\
  os_alive (w_os emu_world) (t_getpid (emu_tools ps_other)) = true /\
  (fst (kill_emulators (emu_tools ps_other) (fun _ => []) exc_name emu_world) = Ok tt /\
   evolves (w_os emu_world) (w_os (snd (kill_emulators (emu_tools ps_other) (fun _ => []) exc_name emu_world))) /\
   (forall pid, pid ∈ e_pid <$> [mk_eproc 4000 emu_line_4000; mk_eproc 5000 emu_line_5000] ->
      os_alive (w_os (snd (kill_emulators (emu_tools ps_other) (fun _ => []) exc_name emu_world))) pid = true ->
      os_allowed (w_os (snd (kill_emulators (emu_tools ps_other) (fun _ => []) exc_name emu_world))) pid = false)).
Proof.
  assert (t_ps_aux (emu_tools ps_other) = Ok ps_other) as H1 by reflexivity.
  assert (emulator_entries (py_splitlines ps_other) =
    Ok [mk_eproc 4000 emu_line_4000; mk_eproc 5000 emu_line_5000]) as H2 by (vm_compute; reflexivity).
  assert (t_getpid (emu_tools ps_other) ∉ e_pid <$> [mk_eproc 4000 emu_line_4000; mk_eproc 5000 emu_line_5000])
    as H3 by (vm_compute; set_solver).
  assert (os_alive (w_os emu_world) (t_getpid (emu_tools ps_other)) = true) as H4 by reflexivity.
  split; [exact H1|]. split; [exact H2|]. split; [exact H3|]. split; [exact H4|].
  exact (kill_emulators_signals_all (emu_tools ps_other) (fun _ => []) exc_name emu_world _ _ H1 H2 H3 H4).
Defined.

Lemma kill_emulators_self_kill_witness :
  t_ps_aux (emu_tools ps_self) = Ok ps_self /\
  emulator_entries (py_splitlines ps_self) =
    Ok ([mk_eproc 4000 emu_line_4000] ++ mk_eproc 4242 self_line :: [mk_eproc 5000 emu_line_5000]) /\
  e_pid (mk_eproc 4242 self_line) = t_getpid (emu_tools ps_self) /\
  t_getpid (emu_tools ps_self) ∉ e_pid <$> [mk_eproc 4000 emu_line_4000] /\
  os_alive (w_os emu_world) (t_getpid (emu_tools ps_self)) = true /\
  os_allowed (w_os emu_world) (t_getpid (emu_tools ps_self)) = true /\
  (fst (kill_emulators (emu_tools ps_self) (fun _ => []) exc_name emu_world) = Exn (ProcessKilled 9) /\
   exists out', kill_emulators (emu_tools ps_self) (fun _ => []) exc_name emu_world =
     py_for ([mk_eproc 4000 emu_line_4000] ++ [mk_eproc 4242 self_line])
       (kill_one (emu_tools ps_self) (fun _ => []) exc_name)
       (mk_world (w_os emu_world) out' (w_tick emu_world))).
Proof.
  assert (t_ps_aux (emu_tools ps_self) = Ok ps_self) as H1 by reflexivity.
  assert (emulator_entries (py_splitlines ps_self) =
    Ok ([mk_eproc 4000 emu_line_4000] ++ mk_eproc 4242 self_line :: [mk_eproc 5000 emu_line_5000]))
    as H2 by (vm_compute; reflexivity).
  assert (e_pid (mk_eproc 4242 self_line) = t_getpid (emu_tools ps_self)) as H3 by reflexivity.
  assert (t_getpid (emu_tools ps_self) ∉ e_pid <$> [mk_eproc 4000 emu_line_4000]) as H4
    by (vm_compute; set_solver).
  assert (os_alive (w_os emu_world) (t_getpid (emu_tools ps_self)) = true) as H5 by reflexivity.
  assert (os_allowed (w_os emu_world) (t_getpid (emu_tools ps_self)) = true) as H6 by reflexivity.
  split; [exact H1|]. split; [exact H2|]. split; [exact H3|]. split; [exact H4|].
  split; [exact H5|]. split; [exact H6|].
  exact (kill_emulators_self_kill (emu_tools ps_self) (fun _ => []) exc_name emu_world _ _ _ _
           H1 H2 H3 H4 H5 H6).
Defined.

(** The run on [ps_self]: pid 4000 is killed, then the script kills
    itself and the emulator 5000 survives. *)
Example kill_emulators_self_run :
  let r := kill_emulators (emu_tools ps_self) (fun _ => []) exc_name emu_world in
  fst r = Exn (ProcessKilled 9) /\
  map (os_alive (w_os (snd r))) [4000; 4242; 5000] = [false; false; true].
Proof. vm_compute. split; reflexivity. Qed.

End Emulator.
