(* ===== verification/KillMain.v ===== *)
(** * The [__main__] block of [src/scripts/kill.py]

    The parsed arguments ([argparse] itself is not modelled) are the list
    of [--port] strings ([None] without any) and the [--kill] flag.  The
    block parses the ports (printing warnings), lists the matching
    processes, prints them, and with [--kill] runs [kill_processes] and
    exits 2 when some pid could not be killed.  [sys.exit(n)] raises
    [SystemExit n]; [exit_code] reads the status the interpreter exits
    with, 1 for an uncaught exception. *)

From S2P Require Import Prelude PyStr PyOS KillProcs Listeners ListProcs PortArgs.
From Stdlib Require Import Ascii.

Local Open Scope py_scope.

Module KillMain.

Record args : Type := mk_args {
  a_ports : option (list string);
  a_kill : bool
}.

(** [str(failed)] for a list of integers. *)
Definition py_repr_Zlist (zs : list Z) : string :=
  ("[" ++ String.concat ", " (map py_str_Z zs) ++ "]")%string.

(** The exit status of the interpreter after the program's outcome. *)
Definition exit_code {A} (r : res A) : Z :=
  match r with
  | Ok _ => 0
  | Exn (SystemExit n) => n
  | Exn (ProcessKilled s) => 128 + s
  | Exn _ => 1
  end.

Section Main.
Context {OS : Type} `{SignalOSLaws OS}.
Context (T : tools) (sched : nat -> list Z).

(** The [--kill] branch. *)
Definition kill_branch (procs : list (Z * string)) : PyM (world OS) unit :=
  Kill.kill_processes (t_getpid T) sched procs ≫= (fun failed =>
  match failed with
  | [] => py_print "All matching processes terminated."
  | _ =>
      py_print ("Some PIDs could not be killed: " ++ py_repr_Zlist failed)%string ;;;
      raise (SystemExit 2)
  end).

(** [for pid, cmd in procs: print(f"  {pid}\t{cmd}")]. *)
Definition print_procs (procs : list (Z * string)) : PyM (world OS) unit :=
  py_for procs (fun '(pid, cmd) => py_print ("  " ++ py_str_Z pid ++ "	" ++ cmd)%string).

(** The block after [parse_args()]. *)
Definition main (a : args) : PyM (world OS) unit :=
  let '(ports, warnings) := PortArgs.parse_ports (a_ports a) in
  py_for warnings py_print ;;;
  py_lift (ListProcs.list_processes T ports) ≫= (fun procs =>
  match procs with
  | [] => py_print "No matching processes found." ;;; raise (SystemExit 0)
  | _ =>
      py_print "Matched processes:" ;;;
      print_procs procs ;;;
      if a_kill a then kill_branch procs
      else py_print "(Dry run) Re-run with --kill to terminate them."
  end).

(** ** Printing *)

Lemma py_for_print (ws : list string) (w : world OS) :
  py_for ws py_print w = (Ok tt, mk_world (w_os w) (w_out w ++ ws) (w_tick w)).
Proof.
  revert w. induction ws as [|l ws IH]; intros w; py_run.
  - destruct w. by rewrite app_nil_r.
  - cbn. rewrite IH. cbn. by rewrite <- app_assoc.
Qed.

Lemma print_procs_spec (ps : list (Z * string)) (w : world OS) :
  exists out, print_procs ps w = (Ok tt, mk_world (w_os w) out (w_tick w)).
Proof.
  unfold print_procs. revert w. induction ps as [|[pid cmd] ps IH]; intros w; py_run; [destruct w; by eexists|].
  cbn. destruct (IH (mk_world (w_os w) (w_out w ++ [("  " ++ py_str_Z pid ++ "	" ++ cmd)%string]) (w_tick w))) as [out ->]. by eexists.
Qed.

Ltac run_print_procs out :=
  match goal with
  | |- context [print_procs ?ps ?w0] => destruct (print_procs_spec ps w0) as [out ->]
  end.

(** The listing step of [main], with the loops folded. *)
Lemma main_unfold a w :
  main a w =
  let w0 := mk_world (w_os w) (w_out w ++ (PortArgs.parse_ports (a_ports a)).2) (w_tick w) in
  match ListProcs.list_processes T (PortArgs.parse_ports (a_ports a)).1 with
  | Exn e => (Exn e, w0)
  | Ok [] => (Exn (SystemExit 0), snd (py_print "No matching processes found." w0))
  | Ok procs =>
      let '(_, w1) := print_procs procs (snd (py_print "Matched processes:" w0)) in
      if a_kill a then kill_branch procs w1
      else py_print "(Dry run) Re-run with --kill to terminate them." w1
  end.
Proof.
  unfold main. destruct (PortArgs.parse_ports (a_ports a)) as [ports ws].
  cbv [mbind pym_bind py_lift raise]. rewrite py_for_print. cbn [fst snd].
  destruct (ListProcs.list_processes T ports) as [[|pc procs]|e]; [done| |done].
  cbv [py_print]. cbn [fst snd w_os w_out w_tick].
  destruct (print_procs_spec (pc :: procs) (mk_world (w_os w) ((w_out w ++ ws) ++ ["Matched processes:"]) (w_tick w))) as [out ->].
  by destruct (a_kill a).
Qed.

(** C2: with [--kill], the script exits with status 0 only when every
    process it listed is dead afterwards (other processes may exit
    meanwhile); otherwise it exits with status 2 after printing the pids
    it could not kill. *)
Theorem main_kill_outcome a w procs :
  a_kill a = true ->
  ListProcs.list_processes T (PortArgs.parse_ports (a_ports a)).1 = Ok procs ->
  os_alive (w_os w) (t_getpid T) = true ->
  (exit_code (fst (main a w)) = 0 /\
   forall pid, pid ∈ procs.*1 -> os_alive (w_os (snd (main a w))) pid = false) \/
  fst (main a w) = Exn (SystemExit 2).
Proof.
  intros Hk Hl Hme. rewrite main_unfold. cbv zeta. rewrite Hl.
  destruct procs as [|pc procs']; [left; split; [done|intros ? []%not_elem_of_nil]|].
  run_print_procs out.
  rewrite Hk. cbn [snd py_print w_os w_tick].
  set (w1 := mk_world (w_os w) out (w_tick w)).
  pose proof (ListProcs.list_processes_no_self T _ _ Hl) as Hself.
  destruct (Kill.kill_processes_outcome (t_getpid T) sched (pc :: procs') w1 Hself Hme)
    as (failed & w' & Hrun & _ & _ & Hdone & _).
  unfold kill_branch. cbv [mbind pym_bind]. rewrite Hrun.
  destruct failed as [|f fs]; [left|by right].
  split; [done|]. intros pid Hpid.
  by destruct (Hdone pid Hpid) as [Hd|?%not_elem_of_nil].
Qed.

(** C9: without [--kill] the script sends no signal at all: the
    operating system is untouched whatever the listing finds, and the
    exit status is 0 when the listing succeeds. *)
Theorem main_dry_run a w :
  a_kill a = false ->
  w_os (snd (main a w)) = w_os w /\
  (forall procs, ListProcs.list_processes T (PortArgs.parse_ports (a_ports a)).1 = Ok procs ->
     exit_code (fst (main a w)) = 0).
Proof.
  intros Hk. rewrite main_unfold. cbv zeta.
  destruct (ListProcs.list_processes T _) as [[|pc procs']|e]; [done| |by split].
  run_print_procs out.
  by rewrite Hk.
Qed.

(** C14: when [int()] rejects every token of every [-p] value (a typo
    such as [-p 8O81]), the script only warns and the port list is
    empty, so [list_processes] falls back to [DEFAULT_PORTS]: after the
    warnings the run is the run of [-p 8082,8081], and with [--kill] it
    signals the listeners of those ports. *)
Theorem main_invalid_ports_default a w items :
  a_ports a = Some items ->
  (forall item tok z, item ∈ items -> tok ∈ py_split_sep "," item -> py_int (py_strip tok) <> Ok z) ->
  main a w = main (mk_args (Some ["8082,8081"]) (a_kill a))
               (mk_world (w_os w) (w_out w ++ (PortArgs.parse_ports (a_ports a)).2) (w_tick w)).
Proof.
  intros Ha Hbad. pose proof (PortArgs.parse_ports_none_valid items Hbad) as Hp.
  rewrite <- Ha in Hp. rewrite !main_unfold. cbn [a_ports a_kill w_os w_out w_tick].
  rewrite Hp. change (PortArgs.parse_ports (Some ["8082,8081"])) with ([8082; 8081], @nil string).
  cbn [fst snd]. rewrite app_nil_r. reflexivity.
Qed.

End Main.

(** ** Runs on a concrete process table *)

Import ProcTable.

(** The processes of [ListProcs.demo_tools]: the script is pid 600, pid
    500 ignores SIGTERM, pid 700 belongs to another user. *)
Definition main_table : ptable :=
  PT (list_to_map [(600, mk_proc "python3 scripts/kill.py --kill" true TermExits);
                   (500, mk_proc "node node_modules/.bin/jest --runInBand" true TermIgnored);
                   (700, mk_proc "node server.js" false TermExits)]).

Definition main_world : world ptable := mk_world main_table [] 0.

Definition kill_args : args := mk_args None true.

Lemma main_kill_outcome_witness :
  a_kill kill_args = true /\
  ListProcs.list_processes ListProcs.demo_tools (PortArgs.parse_ports (a_ports kill_args)).1 =
    Ok [(500, "node node_modules/.bin/jest --runInBand"); (700, "node server.js")] /\
  os_alive (w_os main_world) (t_getpid ListProcs.demo_tools) = true /\
  ((exit_code (fst (main ListProcs.demo_tools (fun _ => []) kill_args main_world)) = 0 /\
    forall pid, pid ∈ [(500, "node node_modules/.bin/jest --runInBand"); (700, "node server.js")].*1 ->
      os_alive (w_os (snd (main ListProcs.demo_tools (fun _ => []) kill_args main_world))) pid = false) \/
   fst (main ListProcs.demo_tools (fun _ => []) kill_args main_world) = Exn (SystemExit 2)).
Proof.
  assert (a_kill kill_args = true) as H1 by reflexivity.
  assert (ListProcs.list_processes ListProcs.demo_tools (PortArgs.parse_ports (a_ports kill_args)).1 =
    Ok [(500, "node node_modules/.bin/jest --runInBand"); (700, "node server.js")]) as H2
    by (vm_compute; reflexivity).
  assert (os_alive (w_os main_world) (t_getpid ListProcs.demo_tools) = true) as H3 by reflexivity.
  split; [exact H1|]. split; [exact H2|]. split; [exact H3|].
  exact (main_kill_outcome ListProcs.demo_tools (fun _ => []) kill_args main_world _ H1 H2 H3).
Defined.

(** Pid 700 survives, so the run ends in [sys.exit(2)] after reporting it. *)
Example main_kill_demo :
  let r := main ListProcs.demo_tools (fun _ => []) kill_args main_world in
  fst r = Exn (SystemExit 2) /\
  w_out (snd r) =
     ["Matched processes:"; "  500	node node_modules/.bin/jest --runInBand"; "  700	node server.js";
      "SIGTERM 500 :: node node_modules/.bin/jest --runInBand";
      "SIGTERM 700 :: node server.js";
      "SIGKILL 500 :: node node_modules/.bin/jest --runInBand";
      "Some PIDs could not be killed: [700]"] /\
  map (os_alive (w_os (snd r))) [500; 600; 700] = [false; true; true].
Proof. vm_compute. repeat split. Qed.

Lemma main_dry_run_witness :
  a_kill (mk_args (Some ["8081"]) false) = false /\
  w_os (snd (main ListProcs.demo_tools (fun _ => []) (mk_args (Some ["8081"]) false) main_world))
    = w_os main_world /\
  (forall procs, ListProcs.list_processes ListProcs.demo_tools
                   (PortArgs.parse_ports (a_ports (mk_args (Some ["8081"]) false))).1 = Ok procs ->
     exit_code (fst (main ListProcs.demo_tools (fun _ => []) (mk_args (Some ["8081"]) false) main_world)) = 0).
Proof.
  assert (a_kill (mk_args (Some ["8081"]) false) = false) as H1 by reflexivity.
  split; [exact H1|].
  exact (main_dry_run ListProcs.demo_tools (fun _ => []) _ main_world H1).
Defined.

(** A mistyped [-p 8O81] is dropped with a warning and the run lists the
    default ports. *)
Definition typo_args : args := mk_args (Some ["8O81"]) true.

Lemma main_invalid_ports_default_witness :
  a_ports typo_args = Some ["8O81"] /\
  (forall item tok z, item ∈ ["8O81"] -> tok ∈ py_split_sep "," item -> py_int (py_strip tok) <> Ok z) /\
  main ListProcs.demo_tools (fun _ => []) typo_args main_world =
  main ListProcs.demo_tools (fun _ => []) (mk_args (Some ["8082,8081"]) (a_kill typo_args))
    (mk_world (w_os main_world) (w_out main_world ++ (PortArgs.parse_ports (a_ports typo_args)).2)
       (w_tick main_world)).
Proof.
  assert (a_ports typo_args = Some ["8O81"]) as H1 by reflexivity.
  assert (forall item tok z, item ∈ ["8O81"] -> tok ∈ py_split_sep "," item ->
            py_int (py_strip tok) <> Ok z) as H2.
  { intros item tok z Hi Ht. apply list_elem_of_singleton in Hi as ->.
    vm_compute in Ht. apply list_elem_of_singleton in Ht as ->. vm_compute. discriminate. }
  split; [exact H1|]. split; [exact H2|].
  exact (main_invalid_ports_default ListProcs.demo_tools (fun _ => []) typo_args main_world _ H1 H2).
Defined.

Example typo_warning :
  PortArgs.parse_ports (a_ports typo_args) = ([], ["Warning: ignoring non-numeric port '8O81'"]).
Proof. vm_compute. reflexivity. Qed.

End KillMain.
